(** * bq_utils: loading files staged in GCS into BigQuery tables

    A shallow embedding of [src/bq_utils.py] ([load_parquet_from_gcs] and
    [load_csv_from_gcs]) together with the properties of its
    encoding-normalisation, load-configuration and cleanup logic.

    Conventions of the embedding.
    - A Python [str] used for a name, path or option is a [string]; its
      characters are the code points below 256.  [Optional[str]] is
      [option string], and Python truthiness ([if encoding:]) is written
      out: [None] and the empty string are both falsy.
    - The body of a staged file is [bytes]; the text obtained by decoding
      it is the list of its Unicode code points.
    - The BigQuery and Storage clients are collaborators: each is a record
      of the outcomes of its calls, and every call either returns or
      raises.  A run of a loader yields the sequence of calls and console
      messages it performed, in order, and how it ended. *)

From Stdlib Require Import String Ascii List ZArith Lia Bool.
From Stdlib Require Import Strings.Byte.
Import ListNotations.
Local Open Scope string_scope.
Local Open Scope Z_scope.

(** ** Python strings *)

Module PyStr.

(** [str.lower] on one character of the Latin-1 range: the ASCII capitals
    and the capitals U+00C0..U+00DE (the multiplication sign U+00D7
    apart) move up by 32, every other character is kept. *)
Definition lower_char (c : ascii) : ascii :=
  let n := N_of_ascii c in
  if ((65 <=? n) && (n <=? 90))%N
     || ((192 <=? n) && (n <=? 222) && negb (n =? 215))%N
  then ascii_of_N (n + 32)
  else c.

Fixpoint lower (s : string) : string :=
  match s with
  | EmptyString => EmptyString
  | String c s' => String (lower_char c) (lower s')
  end.

(** [x in [a, b, ...]] on strings. *)
Definition in_list (x : string) (l : list string) : bool :=
  existsb (String.eqb x) l.

(** Truthiness of a [str]: only the empty string is falsy. *)
Definition truthy (s : string) : bool :=
  match s with EmptyString => false | _ => true end.

(** Truthiness of an [Optional[str]]. *)
Definition truthy_opt (o : option string) : bool :=
  match o with Some s => truthy s | None => false end.

End PyStr.

(** ** Exceptions and outcomes *)

Inductive exn : Type :=
| ValueError (msg : string)
| AttributeError (name : string)
| UnicodeDecodeError (codec : string)
| UnicodeEncodeError (codec : string)
| GoogleCloudError (msg : string).

Inductive outcome (A : Type) : Type :=
| Returns (a : A)
| Raises (e : exn).
Arguments Returns {A} a.
Arguments Raises {A} e.

(** ** The two codecs used by the conversion *)

Module Codec.

Definition bytes := list byte.
Definition text := list Z.

Definition byte_val (b : byte) : Z := Z.of_N (Byte.to_N b).

Definition byte_of_Z (z : Z) : byte :=
  match Byte.of_N (Z.to_N (Z.land z 255)) with
  | Some b => b
  | None => x00
  end.

Definition is_high_surrogate (u : Z) : bool := (0xD800 <=? u) && (u <=? 0xDBFF).
Definition is_low_surrogate (u : Z) : bool := (0xDC00 <=? u) && (u <=? 0xDFFF).
Definition is_surrogate (u : Z) : bool := (0xD800 <=? u) && (u <=? 0xDFFF).

(** The 16-bit unit of two bytes, least significant first. *)
Definition unit16 (b0 b1 : byte) : Z :=
  Z.lor (byte_val b0) (Z.shiftl (byte_val b1) 8).

Definition join_surrogates (hi lo : Z) : Z :=
  0x10000 + Z.lor (Z.shiftl (hi - 0xD800) 10) (lo - 0xDC00).

(** [content.decode('utf-16le')], strict error handling: an odd byte
    count, a high surrogate without its low one and a low surrogate on
    its own all raise.  A byte-order mark is not removed by this codec. *)
Fixpoint decode_utf_16_le (bs : bytes) : outcome text :=
  match bs with
  | [] => Returns []
  | [_] => Raises (UnicodeDecodeError "utf-16-le")
  | b0 :: b1 :: rest =>
      let u := unit16 b0 b1 in
      if is_high_surrogate u then
        match rest with
        | c0 :: c1 :: rest' =>
            let v := unit16 c0 c1 in
            if is_low_surrogate v then
              match decode_utf_16_le rest' with
              | Returns t => Returns (join_surrogates u v :: t)
              | Raises e => Raises e
              end
            else Raises (UnicodeDecodeError "utf-16-le")
        | _ => Raises (UnicodeDecodeError "utf-16-le")
        end
      else if is_low_surrogate u then Raises (UnicodeDecodeError "utf-16-le")
      else
        match decode_utf_16_le rest with
        | Returns t => Returns (u :: t)
        | Raises e => Raises e
        end
  end.

(** The UTF-8 bytes of one code point; surrogates cannot be encoded. *)
Definition encode_utf_8_char (c : Z) : option bytes :=
  if c <? 0x80 then Some [byte_of_Z c]
  else if c <? 0x800 then
    Some [byte_of_Z (Z.lor 0xC0 (Z.shiftr c 6));
          byte_of_Z (Z.lor 0x80 (Z.land c 0x3F))]
  else if c <? 0x10000 then
    if is_surrogate c then None
    else
      Some [byte_of_Z (Z.lor 0xE0 (Z.shiftr c 12));
            byte_of_Z (Z.lor 0x80 (Z.land (Z.shiftr c 6) 0x3F));
            byte_of_Z (Z.lor 0x80 (Z.land c 0x3F))]
  else
    Some [byte_of_Z (Z.lor 0xF0 (Z.shiftr c 18));
          byte_of_Z (Z.lor 0x80 (Z.land (Z.shiftr c 12) 0x3F));
          byte_of_Z (Z.lor 0x80 (Z.land (Z.shiftr c 6) 0x3F));
          byte_of_Z (Z.lor 0x80 (Z.land c 0x3F))].

(** [text_content.encode('utf-8')], strict error handling. *)
Fixpoint encode_utf_8 (t : text) : outcome bytes :=
  match t with
  | [] => Returns []
  | c :: t' =>
      match encode_utf_8_char c with
      | None => Raises (UnicodeEncodeError "utf-8")
      | Some bs =>
          match encode_utf_8 t' with
          | Returns r => Returns (bs ++ r)%list
          | Raises e => Raises e
          end
      end
  end.

(** The bytes of an ASCII string literal, for concrete runs. *)
Fixpoint of_string (s : string) : bytes :=
  match s with
  | EmptyString => []
  | String c s' => byte_of_Z (Z.of_N (N_of_ascii c)) :: of_string s'
  end.

(** A Unicode scalar value: a code point up to U+10FFFF, no surrogate. *)
Definition is_scalar (c : Z) : Prop :=
  0 <= c <= 0x10FFFF /\ is_surrogate c = false.

(** *** The inverse codecs

    [str.encode('utf-16-le')] and [bytes.decode('utf-8')], with strict
    error handling.  The loader does not call them; they say what the
    bytes on either side of the conversion spell.  They are written with
    division and remainder, the conversion itself with shifts and masks. *)

(** The two bytes of a 16-bit unit, least significant first. *)
Definition unit_bytes (u : Z) : bytes :=
  [byte_of_Z (u mod 256); byte_of_Z (u / 256)].

(** The UTF-16LE bytes of one code point: one unit below U+10000, a high
    and a low surrogate above; a surrogate code point cannot be encoded. *)
Definition encode_utf_16_le_char (c : Z) : option bytes :=
  if is_surrogate c then None
  else if c <? 0x10000 then Some (unit_bytes c)
  else
    Some (unit_bytes (0xD800 + (c - 0x10000) / 1024)
          ++ unit_bytes (0xDC00 + (c - 0x10000) mod 1024))%list.

Fixpoint encode_utf_16_le (t : text) : outcome bytes :=
  match t with
  | [] => Returns []
  | c :: t' =>
      match encode_utf_16_le_char c with
      | None => Raises (UnicodeEncodeError "utf-16-le")
      | Some bs =>
          match encode_utf_16_le t' with
          | Returns r => Returns (bs ++ r)%list
          | Raises e => Raises e
          end
      end
  end.

(** A continuation byte is one of 0x80..0xBF; it carries six bits. *)
Definition is_continuation (b : byte) : bool :=
  (0x80 <=? byte_val b) && (byte_val b <=? 0xBF).

Definition continuation_bits (b : byte) : Z := byte_val b - 0x80.

Definition followed_by (c : Z) (o : outcome text) : outcome text :=
  match o with
  | Returns t => Returns (c :: t)
  | Raises e => Raises e
  end.

(** [bytes.decode('utf-8')]: a lead byte announces how many continuation
    bytes follow; a stray continuation byte, a sequence cut short, an
    encoding longer than needed, a surrogate and a value above U+10FFFF
    all raise. *)
Fixpoint decode_utf_8 (bs : bytes) : outcome text :=
  let bad := Raises (UnicodeDecodeError "utf-8") in
  match bs with
  | [] => Returns []
  | b0 :: rest =>
      let v := byte_val b0 in
      if v <? 0x80 then followed_by v (decode_utf_8 rest)
      else if v <? 0xC2 then bad
      else if v <? 0xE0 then
        match rest with
        | b1 :: rest1 =>
            if is_continuation b1 then
              followed_by ((v - 0xC0) * 64 + continuation_bits b1)
                (decode_utf_8 rest1)
            else bad
        | _ => bad
        end
      else if v <? 0xF0 then
        match rest with
        | b1 :: b2 :: rest2 =>
            if is_continuation b1 && is_continuation b2 then
              let c := (v - 0xE0) * 4096 + continuation_bits b1 * 64
                       + continuation_bits b2 in
              if (c <? 0x800) || is_surrogate c then bad
              else followed_by c (decode_utf_8 rest2)
            else bad
        | _ => bad
        end
      else if v <? 0xF5 then
        match rest with
        | b1 :: b2 :: b3 :: rest3 =>
            if is_continuation b1 && is_continuation b2 && is_continuation b3
            then
              let c := (v - 0xF0) * 262144 + continuation_bits b1 * 4096
                       + continuation_bits b2 * 64 + continuation_bits b3 in
              if (c <? 0x10000) || (0x10FFFF <? c) then bad
              else followed_by c (decode_utf_8 rest3)
            else bad
        | _ => bad
        end
      else bad
  end.

End Codec.

(** ** The BigQuery client library, as far as the loaders use it *)

Module bigquery.

Inductive SourceFormat : Type := CSV | PARQUET.

Inductive WriteDisposition : Type := WRITE_APPEND | WRITE_TRUNCATE | WRITE_EMPTY.

Inductive Encoding : Type := UTF_8 | ISO_8859_1.

Record SchemaField : Type := { name : string; field_type : string }.

(** A load configuration.  A property that was never assigned reads
    [None], as in the client library. *)
Record LoadJobConfig : Type := {
  source_format : option SourceFormat;
  write_disposition : option WriteDisposition;
  skip_leading_rows : option Z;
  encoding : option Encoding;
  field_delimiter : option string;
  date_format : option string;
  datetime_format : option string;
  schema : option (list SchemaField);
  autodetect : option bool
}.

(** [bigquery.LoadJobConfig(source_format=.., write_disposition=..)] *)
Definition new_config (sf : SourceFormat) (wd : WriteDisposition)
    (skip : option Z) : LoadJobConfig :=
  {| source_format := Some sf; write_disposition := Some wd;
     skip_leading_rows := skip; encoding := None; field_delimiter := None;
     date_format := None; datetime_format := None; schema := None;
     autodetect := None |}.

Definition set_encoding (c : LoadJobConfig) (e : Encoding) : LoadJobConfig :=
  {| source_format := source_format c; write_disposition := write_disposition c;
     skip_leading_rows := skip_leading_rows c; encoding := Some e;
     field_delimiter := field_delimiter c; date_format := date_format c;
     datetime_format := datetime_format c; schema := schema c;
     autodetect := autodetect c |}.

Definition set_field_delimiter (c : LoadJobConfig) (d : string) : LoadJobConfig :=
  {| source_format := source_format c; write_disposition := write_disposition c;
     skip_leading_rows := skip_leading_rows c; encoding := encoding c;
     field_delimiter := Some d; date_format := date_format c;
     datetime_format := datetime_format c; schema := schema c;
     autodetect := autodetect c |}.

Definition set_date_format (c : LoadJobConfig) (f : string) : LoadJobConfig :=
  {| source_format := source_format c; write_disposition := write_disposition c;
     skip_leading_rows := skip_leading_rows c; encoding := encoding c;
     field_delimiter := field_delimiter c; date_format := Some f;
     datetime_format := datetime_format c; schema := schema c;
     autodetect := autodetect c |}.

Definition set_datetime_format (c : LoadJobConfig) (f : string) : LoadJobConfig :=
  {| source_format := source_format c; write_disposition := write_disposition c;
     skip_leading_rows := skip_leading_rows c; encoding := encoding c;
     field_delimiter := field_delimiter c; date_format := date_format c;
     datetime_format := Some f; schema := schema c;
     autodetect := autodetect c |}.

Definition set_schema (c : LoadJobConfig) (s : list SchemaField) : LoadJobConfig :=
  {| source_format := source_format c; write_disposition := write_disposition c;
     skip_leading_rows := skip_leading_rows c; encoding := encoding c;
     field_delimiter := field_delimiter c; date_format := date_format c;
     datetime_format := datetime_format c; schema := Some s;
     autodetect := autodetect c |}.

Definition set_autodetect (c : LoadJobConfig) (b : bool) : LoadJobConfig :=
  {| source_format := source_format c; write_disposition := write_disposition c;
     skip_leading_rows := skip_leading_rows c; encoding := encoding c;
     field_delimiter := field_delimiter c; date_format := date_format c;
     datetime_format := datetime_format c; schema := schema c;
     autodetect := Some b |}.

(** [getattr(bigquery.WriteDisposition, name)] on the names of the three
    members WRITE_APPEND, WRITE_TRUNCATE and WRITE_EMPTY, and on names
    that are no attribute of the class, where it raises.  The other
    attributes a Python class has (such as [__name__]) and members that
    later versions of the library add are not described: what is proved
    about a run with a given write disposition is proved for the three
    members. *)
Definition getattr_WriteDisposition (name : string) : outcome WriteDisposition :=
  if String.eqb name "WRITE_APPEND" then Returns WRITE_APPEND
  else if String.eqb name "WRITE_TRUNCATE" then Returns WRITE_TRUNCATE
  else if String.eqb name "WRITE_EMPTY" then Returns WRITE_EMPTY
  else Raises (AttributeError name).

Record Table : Type := { num_rows : Z; num_bytes : Z }.

(** A submitted job; [result] is what waiting for its completion does. *)
Record LoadJob : Type := { job_id : string; result : outcome unit }.

Record Client : Type := {
  load_table_from_uri : string -> string -> LoadJobConfig -> outcome LoadJob;
  get_table : string -> outcome Table
}.

End bigquery.

(** ** The Storage client library *)

Module storage.

(** The remote calls of a client, by bucket name and object name. *)
Record Client : Type := {
  download_as_bytes : string -> string -> outcome Codec.bytes;
  upload_from_string : string -> string -> Codec.bytes -> string -> outcome unit;
  delete : string -> string -> outcome unit
}.

(** Bucket and blob handles are built locally, without a remote call. *)
Record Bucket : Type := { bucket_client : Client; bucket_name : string }.
Record Blob : Type := { blob_bucket : Bucket; blob_name : string }.

Definition bucket (c : Client) (name : string) : Bucket :=
  {| bucket_client := c; bucket_name := name |}.

Definition blob (b : Bucket) (name : string) : Blob :=
  {| blob_bucket := b; blob_name := name |}.

End storage.

(** ** Runs: what a loader does, in order, and how it ends *)

(** The console messages of the two loaders. *)
Inductive message : Type :=
| MsgConverting (gcs_path : string)
| MsgConverted (temp_gcs_path : string)
| MsgLoading (gcs_uri table_id : string)
| MsgRows (num_rows : Z) (table_id : string)
| MsgSize (num_bytes : Z)
| MsgPrimaryKey (primary_key : string)
| MsgTempDeleted (temp_gcs_path : string)
| MsgWarnDelete (temp_gcs_path : string) (e : exn).

Inductive event : Type :=
| Printed (m : message)
| Download (bucket_name blob_name : string)
| Upload (bucket_name blob_name : string) (data : Codec.bytes) (content_type : string)
| LoadTableFromUri (gcs_uri table_id : string) (job_config : bigquery.LoadJobConfig)
| JobResult (job : bigquery.LoadJob)
| GetTable (table_id : string)
| Delete (bucket_name blob_name : string).

Definition run (A : Type) : Type := (list event * outcome A)%type.

Definition ret {A} (a : A) : run A := ([], Returns a).

Definition bind {A B} (m : run A) (k : A -> run B) : run B :=
  match m with
  | (t, Returns a) => let (t', r) := k a in ((t ++ t')%list, r)
  | (t, Raises e) => (t, Raises e)
  end.

Definition raise {A} (e : exn) : run A := ([], Raises e).

(** A call to a collaborator: the call is recorded, then its outcome
    is the outcome of the step. *)
Definition call {A} (ev : event) (o : outcome A) : run A := ([ev], o).

(** A local computation that may raise. *)
Definition lift {A} (o : outcome A) : run A := ([], o).

Definition print (m : message) : run unit := ([Printed m], Returns tt).

(** [try: body  except Exception as e: handler e] *)
Definition try_except {A} (body : run A) (handler : exn -> run A) : run A :=
  match body with
  | (t, Returns a) => (t, Returns a)
  | (t, Raises e) => let (t', r) := handler e in ((t ++ t')%list, r)
  end.

Declare Scope run_scope.
Delimit Scope run_scope with run.
Notation "x <- m ;; k" := (bind m (fun x => k))
  (at level 61, m at next level, right associativity) : run_scope.
Notation "m ;; k" := (bind m (fun _ => k))
  (at level 61, right associativity) : run_scope.
Local Open Scope run_scope.

Definition trace {A} (r : run A) : list event := fst r.
Definition ending {A} (r : run A) : outcome A := snd r.

(** The remote calls behind the methods of the library objects. *)
Definition blob_download_as_bytes (b : storage.Blob) : run Codec.bytes :=
  let bk := storage.blob_bucket b in
  call (Download (storage.bucket_name bk) (storage.blob_name b))
       (storage.download_as_bytes (storage.bucket_client bk)
          (storage.bucket_name bk) (storage.blob_name b)).

Definition blob_upload_from_string (b : storage.Blob) (data : Codec.bytes)
    (content_type : string) : run unit :=
  let bk := storage.blob_bucket b in
  call (Upload (storage.bucket_name bk) (storage.blob_name b) data content_type)
       (storage.upload_from_string (storage.bucket_client bk)
          (storage.bucket_name bk) (storage.blob_name b) data content_type).

Definition blob_delete (b : storage.Blob) : run unit :=
  let bk := storage.blob_bucket b in
  call (Delete (storage.bucket_name bk) (storage.blob_name b))
       (storage.delete (storage.bucket_client bk)
          (storage.bucket_name bk) (storage.blob_name b)).

Definition client_load_table_from_uri (c : bigquery.Client) (gcs_uri table_id : string)
    (job_config : bigquery.LoadJobConfig) : run bigquery.LoadJob :=
  call (LoadTableFromUri gcs_uri table_id job_config)
       (bigquery.load_table_from_uri c gcs_uri table_id job_config).

Definition job_result (j : bigquery.LoadJob) : run unit :=
  call (JobResult j) (bigquery.result j).

Definition client_get_table (c : bigquery.Client) (table_id : string)
    : run bigquery.Table :=
  call (GetTable table_id) (bigquery.get_table c table_id).

(** Truthiness of an optional schema: [None] and the empty list are falsy. *)
Definition truthy_schema (s : option (list bigquery.SchemaField)) : bool :=
  match s with Some (_ :: _) => true | _ => false end.

Definition tab : string := String (ascii_of_nat 9) EmptyString.

(** ** The loaders *)

Definition table_id_of (project_id dataset_id table_name : string) : string :=
  project_id ++ "." ++ dataset_id ++ "." ++ table_name.

Definition gs_uri (bucket_name path : string) : string :=
  "gs://" ++ bucket_name ++ "/" ++ path.

(** [if schema: job_config.schema = schema  else: job_config.autodetect = True] *)
Definition apply_schema (job_config : bigquery.LoadJobConfig)
    (schema : option (list bigquery.SchemaField)) : bigquery.LoadJobConfig :=
  match schema with
  | Some (f :: fs) => bigquery.set_schema job_config (f :: fs)
  | _ => bigquery.set_autodetect job_config true
  end.

Definition load_parquet_from_gcs
    (gcs_path table_name : string) (bq_client : bigquery.Client)
    (project_id dataset_id bucket_name : string)
    (schema : option (list bigquery.SchemaField))
    (primary_key : option string)
    (write_disposition : string) : run string :=
  let table_id := table_id_of project_id dataset_id table_name in
  let gcs_uri := gs_uri bucket_name gcs_path in
  print (MsgLoading gcs_uri table_id) ;;
  wd <- lift (bigquery.getattr_WriteDisposition write_disposition) ;;
  let job_config := bigquery.new_config bigquery.PARQUET wd None in
  let job_config := apply_schema job_config schema in
  load_job <- client_load_table_from_uri bq_client gcs_uri table_id job_config ;;
  job_result load_job ;;
  table <- client_get_table bq_client table_id ;;
  print (MsgRows (bigquery.num_rows table) table_id) ;;
  print (MsgSize (bigquery.num_bytes table)) ;;
  (match primary_key with
   | Some pk => if PyStr.truthy pk then print (MsgPrimaryKey pk) else ret tt
   | None => ret tt
   end) ;;
  ret table_id.

(** [encoding and encoding.lower() in ["utf-16le", "utf-16-le"]] *)
Definition needs_utf16_conversion (encoding : option string) : bool :=
  match encoding with
  | Some e => PyStr.truthy e && PyStr.in_list (PyStr.lower e) ["utf-16le"; "utf-16-le"]
  | None => false
  end.

(** The [# Configurer l'encodage] block. *)
Definition configure_encoding (job_config : bigquery.LoadJobConfig)
    (encoding : option string) : bigquery.LoadJobConfig :=
  match encoding with
  | Some e =>
      if PyStr.truthy e then
        if PyStr.in_list (PyStr.lower e) ["utf-8"; "utf8"] then
          bigquery.set_encoding job_config bigquery.UTF_8
        else if PyStr.in_list (PyStr.lower e) ["latin-1"; "iso-8859-1"] then
          bigquery.set_encoding job_config bigquery.ISO_8859_1
        else
          bigquery.set_encoding job_config bigquery.UTF_8
      else job_config
  | None => job_config
  end.

(** The [# Configurer le séparateur] block: the two characters
    backslash, t become one tab. *)
Definition configure_sep (job_config : bigquery.LoadJobConfig)
    (sep : option string) : bigquery.LoadJobConfig :=
  match sep with
  | Some s =>
      if PyStr.truthy s then
        let s := if String.eqb s "\t" then tab else s in
        bigquery.set_field_delimiter job_config s
      else job_config
  | None => job_config
  end.

Definition configure_date_format (job_config : bigquery.LoadJobConfig)
    (date_format : option string) : bigquery.LoadJobConfig :=
  match date_format with
  | Some f => if PyStr.truthy f then bigquery.set_date_format job_config f
              else job_config
  | None => job_config
  end.

Definition configure_datetime_format (job_config : bigquery.LoadJobConfig)
    (datetime_format : option string) : bigquery.LoadJobConfig :=
  match datetime_format with
  | Some f => if PyStr.truthy f then bigquery.set_datetime_format job_config f
              else job_config
  | None => job_config
  end.

(** The local variables that the conversion branch leaves behind. *)
Record staged : Type := {
  temp_blob : option storage.Blob;
  temp_gcs_path : option string;
  staged_uri : string;
  staged_encoding : option string
}.

(** Lines 117-148: the conversion of a UTF-16LE file into a temporary
    UTF-8 object, or the file itself. *)
Definition stage_source
    (gcs_path bucket_name : string) (encoding : option string)
    (storage_client : option storage.Client) : run staged :=
  if needs_utf16_conversion encoding then
    match storage_client with
    | None =>
        raise (ValueError
          "storage_client est requis pour convertir les fichiers UTF-16LE en UTF-8")
    | Some client =>
        print (MsgConverting gcs_path) ;;
        let bucket := storage.bucket client bucket_name in
        let blob := storage.blob bucket gcs_path in
        content <- blob_download_as_bytes blob ;;
        text_content <- lift (Codec.decode_utf_16_le content) ;;
        utf8_content <- lift (Codec.encode_utf_8 text_content) ;;
        let temp_gcs_path := gcs_path ++ ".utf8" in
        let temp_blob := storage.blob bucket temp_gcs_path in
        blob_upload_from_string temp_blob utf8_content "text/plain" ;;
        print (MsgConverted temp_gcs_path) ;;
        ret {| temp_blob := Some temp_blob;
               temp_gcs_path := Some temp_gcs_path;
               staged_uri := gs_uri bucket_name temp_gcs_path;
               staged_encoding := Some "utf-8" |}
    end
  else
    ret {| temp_blob := None; temp_gcs_path := None;
           staged_uri := gs_uri bucket_name gcs_path;
           staged_encoding := encoding |}.

(** Lines 152-186: the load configuration of a CSV load. *)
Definition csv_job_config (wd : bigquery.WriteDisposition) (skip_leading_rows : Z)
    (encoding sep date_format datetime_format : option string)
    (schema : option (list bigquery.SchemaField)) : bigquery.LoadJobConfig :=
  let job_config := bigquery.new_config bigquery.CSV wd (Some skip_leading_rows) in
  let job_config := configure_encoding job_config encoding in
  let job_config := configure_sep job_config sep in
  let job_config := configure_date_format job_config date_format in
  let job_config := configure_datetime_format job_config datetime_format in
  apply_schema job_config schema.

(** Lines 195-201: [if temp_blob and temp_gcs_path: try: delete ...]. *)
Definition cleanup (st : staged) : run unit :=
  match temp_blob st, temp_gcs_path st with
  | Some b, Some p =>
      if PyStr.truthy p then
        try_except
          (blob_delete b ;; print (MsgTempDeleted p))
          (fun e => print (MsgWarnDelete p e))
      else ret tt
  | _, _ => ret tt
  end.

Definition load_csv_from_gcs
    (gcs_path table_name : string) (bq_client : bigquery.Client)
    (project_id dataset_id bucket_name : string)
    (schema : option (list bigquery.SchemaField))
    (skip_leading_rows : Z)
    (write_disposition : string)
    (encoding sep date_format datetime_format : option string)
    (storage_client : option storage.Client) : run string :=
  let table_id := table_id_of project_id dataset_id table_name in
  st <- stage_source gcs_path bucket_name encoding storage_client ;;
  let gcs_uri := staged_uri st in
  let encoding := staged_encoding st in
  print (MsgLoading gcs_uri table_id) ;;
  wd <- lift (bigquery.getattr_WriteDisposition write_disposition) ;;
  let job_config :=
    csv_job_config wd skip_leading_rows encoding sep date_format
      datetime_format schema in
  load_job <- client_load_table_from_uri bq_client gcs_uri table_id job_config ;;
  job_result load_job ;;
  table <- client_get_table bq_client table_id ;;
  print (MsgRows (bigquery.num_rows table) table_id) ;;
  print (MsgSize (bigquery.num_bytes table)) ;;
  cleanup st ;;
  ret table_id.

(** ** Observations on a run *)

Definition is_delete (ev : event) : bool :=
  match ev with Delete _ _ => true | _ => false end.

Definition is_upload (ev : event) : bool :=
  match ev with Upload _ _ _ _ => true | _ => false end.

Definition is_store_op (ev : event) : bool :=
  match ev with
  | Download _ _ | Upload _ _ _ _ | Delete _ _ => true
  | _ => false
  end.

Definition is_remote_call (ev : event) : bool :=
  match ev with Printed _ => false | _ => true end.

Definition is_job_result (ev : event) : bool :=
  match ev with JobResult _ => true | _ => false end.

Definition count (p : event -> bool) (t : list event) : nat :=
  length (filter p t).

(** The source URIs and the configurations handed to the job engine. *)
Fixpoint submissions (t : list event) : list (string * bigquery.LoadJobConfig) :=
  match t with
  | [] => []
  | LoadTableFromUri u _ c :: t' => (u, c) :: submissions t'
  | _ :: t' => submissions t'
  end.

(** The calls of a run, console messages left out. *)
Definition remote_calls (t : list event) : list event := filter is_remote_call t.

(** ** Sample collaborators, for concrete runs *)

Module Sample.

Definition job_done : bigquery.LoadJob :=
  {| bigquery.job_id := "job-1"; bigquery.result := Returns tt |}.

Definition job_failed : bigquery.LoadJob :=
  {| bigquery.job_id := "job-2";
     bigquery.result := Raises (GoogleCloudError "schema mismatch") |}.

Definition loaded : bigquery.Table :=
  {| bigquery.num_rows := 3; bigquery.num_bytes := 42 |}.

(** A warehouse where every load succeeds. *)
Definition bq_ok : bigquery.Client :=
  {| bigquery.load_table_from_uri := fun _ _ _ => Returns job_done;
     bigquery.get_table := fun _ => Returns loaded |}.

(** A warehouse that accepts the job and then reports its failure. *)
Definition bq_job_fails : bigquery.Client :=
  {| bigquery.load_table_from_uri := fun _ _ _ => Returns job_failed;
     bigquery.get_table := fun _ => Returns loaded |}.

(** The UTF-16LE bytes of the text [a;b]. *)
Definition utf16_body : Codec.bytes := [x61; x00; x3b; x00; x62; x00].

Definition utf8_body : Codec.bytes := [x61; x3b; x62].

Definition store_ok : storage.Client :=
  {| storage.download_as_bytes := fun _ _ => Returns utf16_body;
     storage.upload_from_string := fun _ _ _ _ => Returns tt;
     storage.delete := fun _ _ => Returns tt |}.

(** A store where an object cannot be deleted. *)
Definition store_delete_fails : storage.Client :=
  {| storage.download_as_bytes := fun _ _ => Returns utf16_body;
     storage.upload_from_string := fun _ _ _ _ => Returns tt;
     storage.delete := fun _ _ => Raises (GoogleCloudError "forbidden") |}.

End Sample.

(** The same store, with another answer to [delete]. *)
Definition with_delete (c : storage.Client)
    (d : string -> string -> outcome unit) : storage.Client :=
  {| storage.download_as_bytes := storage.download_as_bytes c;
     storage.upload_from_string := storage.upload_from_string c;
     storage.delete := d |}.

(** A store whose source object holds, in UTF-16LE, the three characters
    U+00E9, U+20AC and U+1F600. *)
Module Wide.

Definition utf16_body : Codec.bytes :=
  [xe9; x00; xac; x20; x3d; xd8; x00; xde].

Definition text : Codec.text := [0xE9; 0x20AC; 0x1F600].

Definition utf8_body : Codec.bytes :=
  [xc3; xa9; xe2; x82; xac; xf0; x9f; x98; x80].

Definition store : storage.Client :=
  {| storage.download_as_bytes := fun _ _ => Returns utf16_body;
     storage.upload_from_string := fun _ _ _ _ => Returns tt;
     storage.delete := fun _ _ => Returns tt |}.

End Wide.

(** The remaining kinds of remote call. *)
Definition is_download (ev : event) : bool :=
  match ev with Download _ _ => true | _ => false end.

Definition is_submission (ev : event) : bool :=
  match ev with LoadTableFromUri _ _ _ => true | _ => false end.

Definition is_get_table (ev : event) : bool :=
  match ev with GetTable _ => true | _ => false end.

(** Collaborators that fail at one point each, for concrete runs. *)

Module Faulty.

(** A store where the source object is missing. *)
Definition store_no_source : storage.Client :=
  {| storage.download_as_bytes := fun _ _ => Raises (GoogleCloudError "not found");
     storage.upload_from_string := fun _ _ _ _ => Returns tt;
     storage.delete := fun _ _ => Returns tt |}.

(** A store whose source object has an odd number of bytes. *)
Definition store_odd_body : storage.Client :=
  {| storage.download_as_bytes := fun _ _ => Returns [x61; x00; x3b];
     storage.upload_from_string := fun _ _ _ _ => Returns tt;
     storage.delete := fun _ _ => Returns tt |}.

(** A store that refuses every upload. *)
Definition store_read_only : storage.Client :=
  {| storage.download_as_bytes := fun _ _ => Returns Sample.utf16_body;
     storage.upload_from_string :=
       fun _ _ _ _ => Raises (GoogleCloudError "read only");
     storage.delete := fun _ _ => Returns tt |}.

(** A warehouse that refuses every job. *)
Definition bq_rejects : bigquery.Client :=
  {| bigquery.load_table_from_uri :=
       fun _ _ _ => Raises (GoogleCloudError "permission denied");
     bigquery.get_table := fun _ => Returns Sample.loaded |}.

(** A warehouse that runs the job and then cannot show the table. *)
Definition bq_no_table : bigquery.Client :=
  {| bigquery.load_table_from_uri := fun _ _ _ => Returns Sample.job_done;
     bigquery.get_table := fun _ => Raises (GoogleCloudError "table not found") |}.

End Faulty.

(** The UTF-16LE bytes of a text whose characters are all ASCII: each
    character's byte followed by a zero byte. *)
Definition widen_ascii (bs : Codec.bytes) : Codec.bytes :=
  flat_map (fun b => [b; x00]) bs.

(** * Properties *)

Arguments gs_uri : simpl never.
Arguments table_id_of : simpl never.
Arguments csv_job_config : simpl never.
Arguments apply_schema : simpl never.

(** Case analysis on the next outcome, option or test a run depends on. *)
Ltac step :=
  match goal with
  | |- context [match ?o with Returns _ => _ | Raises _ => _ end] =>
      destruct o eqn:?
  | |- context [match ?o with Some _ => _ | None => _ end] =>
      destruct o eqn:?
  | |- context [if ?b then _ else _] =>
      destruct b eqn:?
  end.

Ltac run_cases := cbn; repeat (step; cbn).

(** Case analysis on which event of a computed trace a given one is. *)
Ltac in_cases H :=
  cbn in H;
  repeat (destruct H as [H|H]; [try discriminate H|]);
  try contradiction.

(** Membership in a computed trace. *)
Ltac in_now := cbn; repeat first [left; reflexivity | right].

(** ** The codecs *)

Example decode_sample :
  Codec.decode_utf_16_le Sample.utf16_body = Returns [0x61; 0x3b; 0x62].
Proof. reflexivity. Qed.

Example encode_sample :
  Codec.encode_utf_8 [0x61; 0x3b; 0x62] = Returns Sample.utf8_body.
Proof. reflexivity. Qed.

(** U+00E9 takes two bytes, U+20AC three, U+1F600 (a surrogate pair in
    UTF-16) four. *)
Example transcode_wide :
  match Codec.decode_utf_16_le [xe9; x00; xac; x20; x3d; xd8; x00; xde] with
  | Returns t => Codec.encode_utf_8 t
  | Raises e => Raises e
  end = Returns [xc3; xa9; xe2; x82; xac; xf0; x9f; x98; x80].
Proof. reflexivity. Qed.

Example decode_odd_length :
  Codec.decode_utf_16_le [x61; x00; x3b] = Raises (UnicodeDecodeError "utf-16-le").
Proof. reflexivity. Qed.

Example decode_lone_surrogate :
  Codec.decode_utf_16_le [x00; xdc] = Raises (UnicodeDecodeError "utf-16-le").
Proof. reflexivity. Qed.

Module CodecFacts.
Import Codec.

Lemma join_surrogates_supplementary hi lo :
  is_high_surrogate hi = true -> is_low_surrogate lo = true ->
  0x10000 <= join_surrogates hi lo.
Proof.
  unfold is_high_surrogate, is_low_surrogate, join_surrogates.
  intros Hh Hl.
  apply andb_prop in Hh as [Hh _]. apply andb_prop in Hl as [Hl _].
  apply Z.leb_le in Hh, Hl.
  assert (0 <= Z.lor (Z.shiftl (hi - 0xD800) 10) (lo - 0xDC00)).
  { apply Z.lor_nonneg. split; [apply Z.shiftl_nonneg|]; lia. }
  lia.
Qed.

Lemma not_surrogate_halves u :
  is_high_surrogate u = false -> is_low_surrogate u = false ->
  is_surrogate u = false.
Proof.
  unfold is_high_surrogate, is_low_surrogate, is_surrogate.
  rewrite !andb_false_iff, !Z.leb_gt. lia.
Qed.

Lemma encode_utf_8_char_defined c :
  is_surrogate c = false -> exists bs, encode_utf_8_char c = Some bs.
Proof.
  intros H. unfold encode_utf_8_char. rewrite H.
  repeat match goal with |- context [if ?b then _ else _] => destruct b end;
    eexists; reflexivity.
Qed.

Lemma encode_utf_8_defined t :
  Forall (fun c => is_surrogate c = false) t ->
  exists bs, encode_utf_8 t = Returns bs.
Proof.
  induction 1 as [|c t Hc _ [r IH]]; cbn.
  - eexists; reflexivity.
  - destruct (encode_utf_8_char_defined c Hc) as [bs ->]. rewrite IH.
    eexists; reflexivity.
Qed.

Lemma decode_utf_16_le_scalars_bounded n :
  forall bs t, (length bs <= n)%nat -> decode_utf_16_le bs = Returns t ->
  Forall (fun c => is_surrogate c = false) t.
Proof.
  induction n as [|n IH]; intros bs t Hlen.
  - destruct bs; [|cbn in Hlen; lia]. cbn. intros [= <-]. constructor.
  - destruct bs as [|b0 [|b1 rest]]; cbn [decode_utf_16_le].
    + intros [= <-]. constructor.
    + discriminate.
    + cbn in Hlen.
      destruct (is_high_surrogate (unit16 b0 b1)) eqn:Hhi.
      * destruct rest as [|c0 [|c1 rest']]; try discriminate.
        destruct (is_low_surrogate (unit16 c0 c1)) eqn:Hlo; try discriminate.
        destruct (decode_utf_16_le rest') as [t'|] eqn:Hrec; try discriminate.
        intros [= <-]. constructor.
        -- pose proof (join_surrogates_supplementary _ _ Hhi Hlo) as Hge.
           unfold is_surrogate. apply andb_false_iff. right.
           apply Z.leb_gt. lia.
        -- apply (IH rest'); [cbn in Hlen; lia | exact Hrec].
      * destruct (is_low_surrogate (unit16 b0 b1)) eqn:Hlo; try discriminate.
        destruct (decode_utf_16_le rest) as [t'|] eqn:Hrec; try discriminate.
        intros [= <-]. constructor.
        -- apply not_surrogate_halves; assumption.
        -- apply (IH rest); [lia | exact Hrec].
Qed.

(** Whatever [decode('utf-16le')] accepts, [encode('utf-8')] accepts. *)
Lemma transcode_defined content t :
  decode_utf_16_le content = Returns t ->
  exists utf8, encode_utf_8 t = Returns utf8.
Proof.
  intros H. apply encode_utf_8_defined.
  exact (decode_utf_16_le_scalars_bounded (length content) content t (le_n _) H).
Qed.

End CodecFacts.

(** Ranges of bytes and of 16-bit units. *)

Lemma byte_val_range b : 0 <= Codec.byte_val b <= 255.
Proof.
  unfold Codec.byte_val. pose proof (Byte.to_N_bounded b). lia.
Qed.

Lemma unit16_range b0 b1 : 0 <= Codec.unit16 b0 b1 < 0x10000.
Proof.
  unfold Codec.unit16.
  pose proof (byte_val_range b0) as H0. pose proof (byte_val_range b1) as H1.
  assert (Hs : Z.shiftl (Codec.byte_val b1) 8 = Codec.byte_val b1 * 256).
  { rewrite Z.shiftl_mul_pow2 by lia. reflexivity. }
  split.
  - apply Z.lor_nonneg. lia.
  - pose proof (Z.add_lor_land (Codec.byte_val b0)
                  (Z.shiftl (Codec.byte_val b1) 8)) as Hadd.
    assert (0 <= Z.land (Codec.byte_val b0) (Z.shiftl (Codec.byte_val b1) 8)).
    { apply Z.land_nonneg. lia. }
    lia.
Qed.

Lemma byte_of_Z_byte_val b : Codec.byte_of_Z (Codec.byte_val b) = b.
Proof.
  unfold Codec.byte_of_Z, Codec.byte_val.
  pose proof (Byte.to_N_bounded b) as Hb.
  change 255 with (Z.ones 8). rewrite Z.land_ones by lia.
  rewrite Z.mod_small by (change (2 ^ 8) with 256; lia).
  rewrite N2Z.id, Byte.of_to_N. reflexivity.
Qed.

(** ** The conversion keeps the text *)

Module RoundTrip.
Import Codec.

Lemma byte_val_byte_of_Z z : 0 <= z < 256 -> byte_val (byte_of_Z z) = z.
Proof.
  intros Hz. unfold byte_val, byte_of_Z.
  change 255 with (Z.ones 8). rewrite Z.land_ones by lia.
  rewrite Z.mod_small by (change (2 ^ 8) with 256; lia).
  destruct (Byte.of_N (Z.to_N z)) as [b|] eqn:Hb.
  - apply Byte.to_of_N in Hb. rewrite Hb. lia.
  - apply Byte.of_N_None_iff in Hb. lia.
Qed.

(** A mask laid over bits that are all clear adds. *)
Lemma lor_disjoint hi lo k :
  0 <= k -> 0 <= lo < 2 ^ k -> Z.land hi (Z.ones k) = 0 -> Z.lor hi lo = hi + lo.
Proof.
  intros Hk Hlo Hhi.
  assert (Hl : Z.land hi lo = 0).
  { rewrite <- (Z.mod_small lo (2 ^ k)) by lia.
    rewrite <- Z.land_ones by lia.
    rewrite (Z.land_comm lo), Z.land_assoc, Hhi. apply Z.land_0_l. }
  pose proof (Z.add_lor_land hi lo). lia.
Qed.

Lemma shiftl_low_bits_clear x k : 0 <= k -> Z.land (Z.shiftl x k) (Z.ones k) = 0.
Proof.
  intros Hk. rewrite Z.land_ones, Z.shiftl_mul_pow2 by lia.
  apply Z.mod_mul. lia.
Qed.

Lemma unit16_value b0 b1 : unit16 b0 b1 = byte_val b0 + 256 * byte_val b1.
Proof.
  unfold unit16. pose proof (byte_val_range b0).
  rewrite Z.lor_comm, (lor_disjoint _ _ 8); try lia.
  - rewrite Z.shiftl_mul_pow2 by lia. change (2 ^ 8) with 256. lia.
  - apply shiftl_low_bits_clear. lia.
Qed.

Lemma join_surrogates_value hi lo :
  0xDC00 <= lo <= 0xDFFF ->
  join_surrogates hi lo = 0x10000 + (hi - 0xD800) * 1024 + (lo - 0xDC00).
Proof.
  intros Hlo. unfold join_surrogates.
  rewrite (lor_disjoint _ _ 10); try lia.
  - rewrite Z.shiftl_mul_pow2 by lia. change (2 ^ 10) with 1024. lia.
  - apply shiftl_low_bits_clear. lia.
Qed.

Lemma unit_bytes_unit16 b0 b1 : unit_bytes (unit16 b0 b1) = [b0; b1].
Proof.
  unfold unit_bytes. rewrite unit16_value.
  pose proof (byte_val_range b0). pose proof (byte_val_range b1).
  replace ((byte_val b0 + 256 * byte_val b1) mod 256) with (byte_val b0)
    by (Z.div_mod_to_equations; lia).
  replace ((byte_val b0 + 256 * byte_val b1) / 256) with (byte_val b1)
    by (Z.div_mod_to_equations; lia).
  now rewrite !byte_of_Z_byte_val.
Qed.

Lemma surrogate_bounds u :
  (is_high_surrogate u = true -> 0xD800 <= u <= 0xDBFF) /\
  (is_low_surrogate u = true -> 0xDC00 <= u <= 0xDFFF) /\
  (is_surrogate u = false -> u < 0xD800 \/ 0xDFFF < u).
Proof.
  unfold is_high_surrogate, is_low_surrogate, is_surrogate.
  rewrite !andb_true_iff, andb_false_iff, !Z.leb_le, !Z.leb_gt. lia.
Qed.

Lemma encode_utf_16_le_char_unit b0 b1 :
  is_high_surrogate (unit16 b0 b1) = false ->
  is_low_surrogate (unit16 b0 b1) = false ->
  encode_utf_16_le_char (unit16 b0 b1) = Some [b0; b1].
Proof.
  intros Hh Hl. unfold encode_utf_16_le_char.
  rewrite (CodecFacts.not_surrogate_halves _ Hh Hl).
  pose proof (unit16_range b0 b1) as Hr.
  replace (unit16 b0 b1 <? 0x10000) with true by (symmetry; apply Z.ltb_lt; lia).
  now rewrite unit_bytes_unit16.
Qed.

Lemma encode_utf_16_le_char_pair b0 b1 c0 c1 :
  is_high_surrogate (unit16 b0 b1) = true ->
  is_low_surrogate (unit16 c0 c1) = true ->
  encode_utf_16_le_char (join_surrogates (unit16 b0 b1) (unit16 c0 c1))
  = Some [b0; b1; c0; c1].
Proof.
  intros Hh Hl.
  apply (proj1 (surrogate_bounds _)) in Hh.
  apply (proj1 (proj2 (surrogate_bounds _))) in Hl.
  unfold encode_utf_16_le_char. rewrite join_surrogates_value by assumption.
  set (u := unit16 b0 b1) in *. set (v := unit16 c0 c1) in *.
  unfold is_surrogate.
  replace (0x10000 + (u - 0xD800) * 1024 + (v - 0xDC00) <=? 0xDFFF) with false
    by (symmetry; apply Z.leb_gt; lia).
  rewrite andb_false_r.
  replace (0x10000 + (u - 0xD800) * 1024 + (v - 0xDC00) <? 0x10000) with false
    by (symmetry; apply Z.ltb_ge; lia).
  replace (0xD800 + (0x10000 + (u - 0xD800) * 1024 + (v - 0xDC00) - 0x10000) / 1024)
    with u by (Z.div_mod_to_equations; lia).
  replace (0xDC00 + (0x10000 + (u - 0xD800) * 1024 + (v - 0xDC00) - 0x10000) mod 1024)
    with v by (Z.div_mod_to_equations; lia).
  subst u v. now rewrite !unit_bytes_unit16.
Qed.

(** Whatever decodes as UTF-16LE is the UTF-16LE encoding of the text it
    decodes to. *)
Lemma encode_decode_utf_16_le_bounded n :
  forall content t, (length content <= n)%nat ->
  decode_utf_16_le content = Returns t ->
  encode_utf_16_le t = Returns content.
Proof.
  induction n as [|n IH]; intros content t Hlen.
  - destruct content; [|cbn in Hlen; lia]. cbn. now intros [= <-].
  - destruct content as [|b0 [|b1 rest]]; cbn [decode_utf_16_le].
    + now intros [= <-].
    + discriminate.
    + cbn in Hlen.
      destruct (is_high_surrogate (unit16 b0 b1)) eqn:Hhi.
      * destruct rest as [|c0 [|c1 rest']]; try discriminate.
        destruct (is_low_surrogate (unit16 c0 c1)) eqn:Hlo; try discriminate.
        destruct (decode_utf_16_le rest') as [t'|] eqn:Hrec; try discriminate.
        intros [= <-]. cbn [encode_utf_16_le].
        rewrite (encode_utf_16_le_char_pair _ _ _ _ Hhi Hlo).
        rewrite (IH rest' t'); [reflexivity | cbn in Hlen; lia | exact Hrec].
      * destruct (is_low_surrogate (unit16 b0 b1)) eqn:Hlo; try discriminate.
        destruct (decode_utf_16_le rest) as [t'|] eqn:Hrec; try discriminate.
        intros [= <-]. cbn [encode_utf_16_le].
        rewrite (encode_utf_16_le_char_unit _ _ Hhi Hlo).
        rewrite (IH rest t'); [reflexivity | lia | exact Hrec].
Qed.

Lemma encode_decode_utf_16_le content t :
  decode_utf_16_le content = Returns t ->
  encode_utf_16_le t = Returns content.
Proof. apply (encode_decode_utf_16_le_bounded (length content)). lia. Qed.

Lemma decode_utf_16_le_yields_scalars n :
  forall content t, (length content <= n)%nat ->
  decode_utf_16_le content = Returns t -> Forall is_scalar t.
Proof.
  induction n as [|n IH]; intros content t Hlen.
  - destruct content; [|cbn in Hlen; lia]. cbn. intros [= <-]. constructor.
  - destruct content as [|b0 [|b1 rest]]; cbn [decode_utf_16_le].
    + intros [= <-]. constructor.
    + discriminate.
    + cbn in Hlen.
      destruct (is_high_surrogate (unit16 b0 b1)) eqn:Hhi.
      * destruct rest as [|c0 [|c1 rest']]; try discriminate.
        destruct (is_low_surrogate (unit16 c0 c1)) eqn:Hlo; try discriminate.
        destruct (decode_utf_16_le rest') as [t'|] eqn:Hrec; try discriminate.
        intros [= <-]. constructor.
        -- apply (proj1 (surrogate_bounds _)) in Hhi.
           apply (proj1 (proj2 (surrogate_bounds _))) in Hlo.
           unfold is_scalar, is_surrogate.
           rewrite join_surrogates_value by assumption.
           split; [lia|]. apply andb_false_iff. right. apply Z.leb_gt. lia.
        -- apply (IH rest'); [cbn in Hlen; lia | exact Hrec].
      * destruct (is_low_surrogate (unit16 b0 b1)) eqn:Hlo; try discriminate.
        destruct (decode_utf_16_le rest) as [t'|] eqn:Hrec; try discriminate.
        intros [= <-]. constructor.
        -- pose proof (unit16_range b0 b1). split; [lia|].
           now apply CodecFacts.not_surrogate_halves.
        -- apply (IH rest); [lia | exact Hrec].
Qed.

Lemma tagged_byte hi x k :
  0 <= k -> 0 <= x < 2 ^ k -> Z.land hi (Z.ones k) = 0 ->
  0 <= hi -> hi + x < 256 ->
  byte_val (byte_of_Z (Z.lor hi x)) = hi + x.
Proof.
  intros Hk Hx Hhi H0 H256.
  rewrite (lor_disjoint hi x k) by assumption.
  apply byte_val_byte_of_Z. lia.
Qed.

Lemma shiftr_div c k : 0 <= k -> Z.shiftr c k = c / 2 ^ k.
Proof. intros. now apply Z.shiftr_div_pow2. Qed.

Lemma low_six_bits y : Z.land y 0x3F = y mod 64.
Proof. change 0x3F with (Z.ones 6). now rewrite Z.land_ones by lia. Qed.

Lemma continuation_byte y :
  byte_val (byte_of_Z (Z.lor 0x80 (Z.land y 0x3F))) = 0x80 + y mod 64.
Proof.
  rewrite low_six_bits. pose proof (Z.mod_pos_bound y 64 ltac:(lia)).
  apply (tagged_byte 0x80 (y mod 64) 6); try lia; reflexivity.
Qed.

Ltac decide_test :=
  match goal with
  | |- context [?a <? ?b] =>
      first [ replace (a <? b) with true
                by (symmetry; apply Z.ltb_lt; Z.div_mod_to_equations; lia)
            | replace (a <? b) with false
                by (symmetry; apply Z.ltb_ge; Z.div_mod_to_equations; lia) ]
  | |- context [?a <=? ?b] =>
      first [ replace (a <=? b) with true
                by (symmetry; apply Z.leb_le; Z.div_mod_to_equations; lia)
            | replace (a <=? b) with false
                by (symmetry; apply Z.leb_gt; Z.div_mod_to_equations; lia) ]
  end.

#[local] Opaque Z.lor Z.land Z.shiftr Z.mul Z.add Z.sub Z.div Z.modulo.

(** The UTF-8 bytes of a scalar value decode to that value. *)
Lemma decode_encode_utf_8_char c bs rest :
  is_scalar c -> encode_utf_8_char c = Some bs ->
  decode_utf_8 (bs ++ rest)%list = followed_by c (decode_utf_8 rest).
Proof.
  intros [Hr Hs]. unfold encode_utf_8_char. rewrite Hs.
  destruct (Z.ltb_spec c 0x80) as [H1|H1];
    [|destruct (Z.ltb_spec c 0x800) as [H2|H2];
      [|destruct (Z.ltb_spec c 0x10000) as [H3|H3]]];
    intros [= <-]; cbn [app decode_utf_8];
    unfold is_continuation, continuation_bits.
  - rewrite byte_val_byte_of_Z by lia.
    decide_test. reflexivity.
  - rewrite continuation_byte, shiftr_div by lia. change (2 ^ 6) with 64.
    rewrite (tagged_byte 0xC0 (c / 64) 6);
      [|lia|Z.div_mod_to_equations; lia|reflexivity|lia
       |Z.div_mod_to_equations; lia].
    repeat decide_test. cbn [andb].
    replace ((0xC0 + c / 64 - 0xC0) * 64 + (0x80 + c mod 64 - 0x80)) with c
      by (Z.div_mod_to_equations; lia).
    reflexivity.
  - rewrite !continuation_byte, !shiftr_div by lia.
    change (2 ^ 6) with 64. change (2 ^ 12) with 4096.
    rewrite (tagged_byte 0xE0 (c / 4096) 4);
      [|lia|Z.div_mod_to_equations; lia|reflexivity|lia
       |Z.div_mod_to_equations; lia].
    replace ((0xE0 + c / 4096 - 0xE0) * 4096
             + (0x80 + (c / 64) mod 64 - 0x80) * 64
             + (0x80 + c mod 64 - 0x80)) with c
      by (Z.div_mod_to_equations; lia).
    rewrite Hs. repeat decide_test. reflexivity.
  - rewrite !continuation_byte, !shiftr_div by lia.
    change (2 ^ 6) with 64. change (2 ^ 12) with 4096.
    change (2 ^ 18) with 262144.
    rewrite (tagged_byte 0xF0 (c / 262144) 3);
      [|lia|Z.div_mod_to_equations; lia|reflexivity|lia
       |Z.div_mod_to_equations; lia].
    replace ((0xF0 + c / 262144 - 0xF0) * 262144
             + (0x80 + (c / 4096) mod 64 - 0x80) * 4096
             + (0x80 + (c / 64) mod 64 - 0x80) * 64
             + (0x80 + c mod 64 - 0x80)) with c
      by (Z.div_mod_to_equations; lia).
    repeat decide_test. reflexivity.
Qed.

#[local] Transparent Z.lor Z.land Z.shiftr Z.mul Z.add Z.sub Z.div Z.modulo.

Lemma decode_encode_utf_8 t :
  Forall is_scalar t ->
  forall utf8, encode_utf_8 t = Returns utf8 -> decode_utf_8 utf8 = Returns t.
Proof.
  induction 1 as [|c t Hc _ IH]; cbn [encode_utf_8].
  - now intros utf8 [= <-].
  - intros utf8.
    destruct (encode_utf_8_char c) as [bs|] eqn:Hbs; [|discriminate].
    destruct (encode_utf_8 t) as [r|] eqn:Hr; [|discriminate].
    intros [= <-].
    rewrite (decode_encode_utf_8_char c bs r Hc Hbs), (IH r eq_refl).
    reflexivity.
Qed.

(** The UTF-8 bytes produced from UTF-16LE content decode to the text
    that the content decodes to. *)
Lemma transcoding_preserves_text content t utf8 :
  decode_utf_16_le content = Returns t ->
  encode_utf_8 t = Returns utf8 ->
  decode_utf_8 utf8 = Returns t.
Proof.
  intros Hdec Henc. apply decode_encode_utf_8; [|exact Henc].
  exact (decode_utf_16_le_yields_scalars (length content) content t
           (le_n _) Hdec).
Qed.

End RoundTrip.

(** ** The conversion test and the staging step *)

Lemma lower_truthy e s : PyStr.lower e = s -> s <> "" -> PyStr.truthy e = true.
Proof. destruct e; cbn; [congruence | reflexivity]. Qed.

Lemma in_list_spec x l : PyStr.in_list x l = true <-> In x l.
Proof.
  unfold PyStr.in_list. rewrite existsb_exists. split.
  - intros [y [Hy Heq]]. apply String.eqb_eq in Heq. now subst.
  - intros H. exists x. split; [assumption | apply String.eqb_refl].
Qed.

Lemma needs_utf16_conversion_spec e :
  needs_utf16_conversion (Some e) = true <->
  PyStr.lower e = "utf-16le" \/ PyStr.lower e = "utf-16-le".
Proof.
  unfold needs_utf16_conversion. rewrite andb_true_iff, in_list_spec. cbn.
  split.
  - intros [_ [H|[H|[]]]]; auto.
  - intros [H|H]; (split; [eapply lower_truthy; [exact H | discriminate] | auto]).
Qed.

Lemma stage_source_direct gcs_path bucket_name encoding storage_client :
  needs_utf16_conversion encoding = false ->
  stage_source gcs_path bucket_name encoding storage_client =
  ret {| temp_blob := None; temp_gcs_path := None;
         staged_uri := gs_uri bucket_name gcs_path;
         staged_encoding := encoding |}.
Proof. intros H. unfold stage_source. now rewrite H. Qed.

Example lower_mixed_case : PyStr.lower "UTF-16LE" = "utf-16le".
Proof. reflexivity. Qed.

Example lower_underscores : PyStr.lower "ISO_8859_1" = "iso_8859_1".
Proof. reflexivity. Qed.

(** ** Failing fast without a storage client *)

(** C3: when the encoding is, up to case, "utf-16le" or "utf-16-le" and no
    storage client is given, [load_csv_from_gcs] ends in a [ValueError]
    and has performed nothing at all before it: no download, no upload (so
    no temporary object), no call to the job engine. *)
Theorem conversion_without_storage_client_fails
    gcs_path table_name bq_client project_id dataset_id bucket_name schema
    skip_leading_rows write_disposition e sep date_format datetime_format :
  PyStr.lower e = "utf-16le" \/ PyStr.lower e = "utf-16-le" ->
  let r := load_csv_from_gcs gcs_path table_name bq_client project_id
             dataset_id bucket_name schema skip_leading_rows write_disposition
             (Some e) sep date_format datetime_format None in
  (exists msg, ending r = Raises (ValueError msg)) /\ trace r = [].
Proof.
  intros H r. subst r. apply needs_utf16_conversion_spec in H.
  unfold load_csv_from_gcs, stage_source. rewrite H. cbn.
  split; [eexists|]; reflexivity.
Qed.

Lemma conversion_without_storage_client_fails_witness :
  (PyStr.lower "UTF-16LE" = "utf-16le" \/ PyStr.lower "UTF-16LE" = "utf-16-le") /\
  let r := load_csv_from_gcs "data/f.csv" "t" Sample.bq_ok "proj" "ds" "bucket"
             None 1 "WRITE_TRUNCATE" (Some "UTF-16LE") (Some ";") None None None in
  (exists msg, ending r = Raises (ValueError msg)) /\ trace r = [].
Proof.
  split; [left; reflexivity|].
  apply (conversion_without_storage_client_fails "data/f.csv" "t" Sample.bq_ok
           "proj" "ds" "bucket" None 1 "WRITE_TRUNCATE" "UTF-16LE" (Some ";")
           None None).
  left. reflexivity.
Defined.

(** ** The load configuration, field by field *)

Section ConfigFields.

Variables (wd : bigquery.WriteDisposition) (skip_leading_rows : Z).
Variables encoding sep date_format datetime_format : option string.
Variable schema : option (list bigquery.SchemaField).

Let cfg := csv_job_config wd skip_leading_rows encoding sep date_format
             datetime_format schema.

Ltac by_cases :=
  subst cfg; unfold csv_job_config, apply_schema, configure_datetime_format,
    configure_date_format, configure_sep, configure_encoding;
  destruct schema as [[|f fs]|]; cbn [truthy_schema]; repeat step; reflexivity.

Lemma csv_job_config_encoding :
  bigquery.encoding cfg =
  bigquery.encoding
    (configure_encoding
       (bigquery.new_config bigquery.CSV wd (Some skip_leading_rows)) encoding).
Proof. by_cases. Qed.

Lemma csv_job_config_field_delimiter :
  bigquery.field_delimiter cfg =
  match sep with
  | Some s => if PyStr.truthy s
              then Some (if String.eqb s "\t" then tab else s)
              else None
  | None => None
  end.
Proof. by_cases. Qed.

Lemma csv_job_config_autodetect :
  bigquery.autodetect cfg =
  if truthy_schema schema then None else Some true.
Proof. by_cases. Qed.

Lemma csv_job_config_write_disposition :
  bigquery.write_disposition cfg = Some wd.
Proof. by_cases. Qed.

End ConfigFields.

Lemma configure_encoding_supplied job_config e :
  e <> "" ->
  bigquery.encoding (configure_encoding job_config (Some e)) =
  Some (if PyStr.in_list (PyStr.lower e) ["utf-8"; "utf8"] then bigquery.UTF_8
        else if PyStr.in_list (PyStr.lower e) ["latin-1"; "iso-8859-1"]
             then bigquery.ISO_8859_1
             else bigquery.UTF_8).
Proof.
  intros He. unfold configure_encoding.
  destruct e; [congruence|]. cbn [PyStr.truthy].
  repeat step; reflexivity.
Qed.

Lemma configure_encoding_absent job_config encoding :
  PyStr.truthy_opt encoding = false ->
  bigquery.encoding (configure_encoding job_config encoding) =
  bigquery.encoding job_config.
Proof.
  destruct encoding as [e|]; cbn; [|reflexivity].
  intros ->. reflexivity.
Qed.
(** ** What a CSV load hands to the job engine *)

Section CsvRuns.

Variables (gcs_path table_name : string) (bq_client : bigquery.Client).
Variables (project_id dataset_id bucket_name : string).
Variable schema : option (list bigquery.SchemaField).
Variable skip_leading_rows : Z.
Variable write_disposition : string.
Variables encoding sep date_format datetime_format : option string.
Variable storage_client : option storage.Client.

Let r := load_csv_from_gcs gcs_path table_name bq_client project_id
           dataset_id bucket_name schema skip_leading_rows write_disposition
           encoding sep date_format datetime_format storage_client.

Lemma direct_submission wd :
  needs_utf16_conversion encoding = false ->
  bigquery.getattr_WriteDisposition write_disposition = Returns wd ->
  submissions (trace r) =
    [(gs_uri bucket_name gcs_path,
      csv_job_config wd skip_leading_rows encoding sep date_format
        datetime_format schema)].
Proof.
  intros Hn Hwd. subst r. unfold load_csv_from_gcs.
  rewrite stage_source_direct by assumption. cbn. rewrite Hwd.
  run_cases; reflexivity.
Qed.

Lemma direct_no_store_op :
  needs_utf16_conversion encoding = false ->
  filter is_store_op (trace r) = [].
Proof.
  intros Hn. subst r. unfold load_csv_from_gcs.
  rewrite stage_source_direct by assumption.
  run_cases; reflexivity.
Qed.

Lemma direct_submissions_uri :
  needs_utf16_conversion encoding = false ->
  Forall (fun s => fst s = gs_uri bucket_name gcs_path) (submissions (trace r)).
Proof.
  intros Hn. subst r. unfold load_csv_from_gcs.
  rewrite stage_source_direct by assumption.
  run_cases; repeat constructor.
Qed.

Lemma converted_submission client content text utf8 wd :
  needs_utf16_conversion encoding = true ->
  storage_client = Some client ->
  storage.download_as_bytes client bucket_name gcs_path = Returns content ->
  Codec.decode_utf_16_le content = Returns text ->
  Codec.encode_utf_8 text = Returns utf8 ->
  storage.upload_from_string client bucket_name (gcs_path ++ ".utf8") utf8
    "text/plain" = Returns tt ->
  bigquery.getattr_WriteDisposition write_disposition = Returns wd ->
  submissions (trace r) =
    [(gs_uri bucket_name (gcs_path ++ ".utf8"),
      csv_job_config wd skip_leading_rows (Some "utf-8") sep date_format
        datetime_format schema)].
Proof.
  intros Hn Hc Hdl Hdec Henc Hup Hwd. subst r.
  unfold load_csv_from_gcs, stage_source. rewrite Hn, Hc. cbn.
  rewrite Hdl. cbn. rewrite Hdec. cbn. rewrite Henc. cbn. rewrite Hup. cbn.
  rewrite Hwd. run_cases; reflexivity.
Qed.


Lemma submitted_at_most_once : (length (submissions (trace r)) <= 1)%nat.
Proof.
  subst r. unfold load_csv_from_gcs, stage_source.
  run_cases; cbn; lia.
Qed.

End CsvRuns.

(** ** Encodings that need no conversion *)

(** C4: with the encoding absent or one of "utf8", "UTF8", "iso-8859-1",
    "ISO_8859_1", [load_csv_from_gcs] creates no temporary object, performs
    no object-store operation at all (no download, no upload, no
    deletion), and whatever it submits to the job engine has as source URI
    the string "gs://" followed by the bucket name, "/" and gcs_path,
    unchanged; when the write disposition names a member of the
    enumeration, exactly one job is submitted, with that URI. *)
Theorem direct_encodings_load_the_source_itself
    gcs_path table_name bq_client project_id dataset_id bucket_name schema
    skip_leading_rows write_disposition encoding sep date_format
    datetime_format storage_client :
  In encoding
     [None; Some "utf8"; Some "UTF8"; Some "iso-8859-1"; Some "ISO_8859_1"] ->
  let r := load_csv_from_gcs gcs_path table_name bq_client project_id
             dataset_id bucket_name schema skip_leading_rows write_disposition
             encoding sep date_format datetime_format storage_client in
  count is_upload (trace r) = 0%nat /\
  filter is_store_op (trace r) = [] /\
  Forall (fun ev =>
            match ev with
            | Download _ _ | Upload _ _ _ _ | Delete _ _ => False
            | _ => True
            end)
         (trace r) /\
  Forall (fun s => fst s = "gs://" ++ bucket_name ++ "/" ++ gcs_path)
         (submissions (trace r)) /\
  (forall wd,
      bigquery.getattr_WriteDisposition write_disposition = Returns wd ->
      exists cfg,
        submissions (trace r) =
          [("gs://" ++ bucket_name ++ "/" ++ gcs_path, cfg)]).
Proof.
  intros Hin r.
  assert (Hn : needs_utf16_conversion encoding = false).
  { cbn in Hin.
    repeat (destruct Hin as [<-|Hin]; [reflexivity|]). contradiction. }
  split; [|split; [|split; [|split]]].
  - subst r. unfold load_csv_from_gcs.
    rewrite stage_source_direct by assumption.
    run_cases; reflexivity.
  - subst r. apply direct_no_store_op. exact Hn.
  - subst r. unfold load_csv_from_gcs.
    rewrite stage_source_direct by assumption.
    run_cases; repeat constructor.
  - subst r. apply direct_submissions_uri. exact Hn.
  - intros wd Hwd. eexists. subst r. apply direct_submission; eassumption.
Qed.

Lemma direct_encodings_load_the_source_itself_witness :
  In (Some "ISO_8859_1")
     [None; Some "utf8"; Some "UTF8"; Some "iso-8859-1"; Some "ISO_8859_1"] /\
  let r := load_csv_from_gcs "data/f.csv" "t" Sample.bq_ok "proj" "ds" "bucket"
             None 1 "WRITE_TRUNCATE" (Some "ISO_8859_1") (Some ";") None None
             (Some Sample.store_ok) in
  count is_upload (trace r) = 0%nat /\
  filter is_store_op (trace r) = [] /\
  Forall (fun ev =>
            match ev with
            | Download _ _ | Upload _ _ _ _ | Delete _ _ => False
            | _ => True
            end)
         (trace r) /\
  Forall (fun s => fst s = "gs://bucket/data/f.csv") (submissions (trace r)) /\
  exists cfg, submissions (trace r) = [("gs://bucket/data/f.csv", cfg)].
Proof.
  split.
  - cbn. tauto.
  - intros r.
    destruct (direct_encodings_load_the_source_itself "data/f.csv" "t"
                Sample.bq_ok "proj" "ds" "bucket" None 1 "WRITE_TRUNCATE"
                (Some "ISO_8859_1") (Some ";") None None (Some Sample.store_ok))
      as (Hup & Hops & Hnone & Huri & Hsub).
    + cbn. tauto.
    + split; [exact Hup|]. split; [exact Hops|]. split; [exact Hnone|].
      split; [exact Huri|].
      exact (Hsub bigquery.WRITE_TRUNCATE eq_refl).
Defined.

(** ** The UTF-16LE conversion *)

(** C2: when the encoding is, up to case, "utf-16le" or "utf-16-le" and a
    storage client is given, [load_csv_from_gcs] first downloads the source
    object.  Once the download has returned bytes that decode as UTF-16LE
    to a text (bytes that are, conversely, the UTF-16LE encoding of that
    text), the UTF-8 re-encoding of the text exists, decodes as UTF-8 to
    the very same text, and is what is uploaded to gcs_path + ".utf8" in
    the same bucket with content type text/plain.  Once that upload has
    succeeded (and the write disposition names a member of the
    enumeration) the one job submitted reads
    gs://{bucket_name}/{gcs_path}.utf8 and has its encoding field set to
    UTF-8. *)
Theorem utf16_source_is_transcoded_and_retargeted
    gcs_path table_name bq_client project_id dataset_id bucket_name schema
    skip_leading_rows write_disposition e sep date_format datetime_format
    client content text :
  PyStr.lower e = "utf-16le" \/ PyStr.lower e = "utf-16-le" ->
  storage.download_as_bytes client bucket_name gcs_path = Returns content ->
  Codec.decode_utf_16_le content = Returns text ->
  let r := load_csv_from_gcs gcs_path table_name bq_client project_id
             dataset_id bucket_name schema skip_leading_rows write_disposition
             (Some e) sep date_format datetime_format (Some client) in
  Codec.encode_utf_16_le text = Returns content /\
  exists utf8,
    Codec.encode_utf_8 text = Returns utf8 /\
    Codec.decode_utf_8 utf8 = Returns text /\
    (exists rest,
        trace r =
          Printed (MsgConverting gcs_path)
          :: Download bucket_name gcs_path
          :: Upload bucket_name (gcs_path ++ ".utf8") utf8 "text/plain"
          :: rest) /\
    (forall wd,
        storage.upload_from_string client bucket_name (gcs_path ++ ".utf8")
          utf8 "text/plain" = Returns tt ->
        bigquery.getattr_WriteDisposition write_disposition = Returns wd ->
        exists cfg,
          submissions (trace r) =
            [("gs://" ++ bucket_name ++ "/" ++ gcs_path ++ ".utf8", cfg)] /\
          bigquery.encoding cfg = Some bigquery.UTF_8).
Proof.
  intros He Hdl Hdec r.
  apply needs_utf16_conversion_spec in He.
  destruct (CodecFacts.transcode_defined content text Hdec) as [utf8 Henc].
  split; [exact (RoundTrip.encode_decode_utf_16_le content text Hdec)|].
  exists utf8. split; [exact Henc|].
  split; [exact (RoundTrip.transcoding_preserves_text content text utf8 Hdec Henc)|].
  split.
  - subst r. unfold load_csv_from_gcs, stage_source. rewrite He. cbn.
    rewrite Hdl. cbn. rewrite Hdec. cbn. rewrite Henc.
    run_cases; eexists; reflexivity.
  - intros wd Hup Hwd. eexists. split.
    + subst r. eapply converted_submission; eauto.
    + rewrite csv_job_config_encoding. reflexivity.
Qed.

Lemma utf16_source_is_transcoded_and_retargeted_witness :
  (PyStr.lower "UTF-16LE" = "utf-16le" \/ PyStr.lower "UTF-16LE" = "utf-16-le") /\
  storage.download_as_bytes Wide.store "bucket" "data/f.csv"
    = Returns [xe9; x00; xac; x20; x3d; xd8; x00; xde] /\
  Codec.decode_utf_16_le [xe9; x00; xac; x20; x3d; xd8; x00; xde]
    = Returns [0xE9; 0x20AC; 0x1F600] /\
  let r := load_csv_from_gcs "data/f.csv" "t" Sample.bq_ok "proj" "ds" "bucket"
             None 1 "WRITE_TRUNCATE" (Some "UTF-16LE") (Some ";") None None
             (Some Wide.store) in
  Codec.encode_utf_16_le [0xE9; 0x20AC; 0x1F600]
    = Returns [xe9; x00; xac; x20; x3d; xd8; x00; xde] /\
  Codec.decode_utf_8 [xc3; xa9; xe2; x82; xac; xf0; x9f; x98; x80]
    = Returns [0xE9; 0x20AC; 0x1F600] /\
  (exists rest,
      trace r =
        Printed (MsgConverting "data/f.csv")
        :: Download "bucket" "data/f.csv"
        :: Upload "bucket" "data/f.csv.utf8"
             [xc3; xa9; xe2; x82; xac; xf0; x9f; x98; x80] "text/plain"
        :: rest) /\
  exists cfg,
    submissions (trace r) = [("gs://bucket/data/f.csv.utf8", cfg)] /\
    bigquery.encoding cfg = Some bigquery.UTF_8.
Proof.
  split; [left; reflexivity|].
  split; [reflexivity|].
  split; [reflexivity|].
  intros r.
  destruct (utf16_source_is_transcoded_and_retargeted "data/f.csv" "t"
              Sample.bq_ok "proj" "ds" "bucket" None 1 "WRITE_TRUNCATE"
              "UTF-16LE" (Some ";") None None Wide.store Wide.utf16_body
              Wide.text (or_introl eq_refl) eq_refl eq_refl)
    as (Hback & utf8 & Henc & Hdec8 & Htrace & Hsub).
  assert (Hutf8 : utf8 = [xc3; xa9; xe2; x82; xac; xf0; x9f; x98; x80]).
  { assert (Hc : Codec.encode_utf_8 Wide.text
                 = Returns [xc3; xa9; xe2; x82; xac; xf0; x9f; x98; x80])
      by reflexivity.
    rewrite Hc in Henc. injection Henc as <-. reflexivity. }
  subst utf8.
  split; [exact Hback|]. split; [exact Hdec8|]. split; [exact Htrace|].
  exact (Hsub bigquery.WRITE_TRUNCATE eq_refl eq_refl).
Defined.

Example utf16_run :
  load_csv_from_gcs "data/f.csv" "t" Sample.bq_ok "proj" "ds" "bucket"
    None 1 "WRITE_TRUNCATE" (Some "UTF-16LE") (Some ";") None None
    (Some Sample.store_ok)
  = ([Printed (MsgConverting "data/f.csv");
      Download "bucket" "data/f.csv";
      Upload "bucket" "data/f.csv.utf8" Sample.utf8_body "text/plain";
      Printed (MsgConverted "data/f.csv.utf8");
      Printed (MsgLoading "gs://bucket/data/f.csv.utf8" "proj.ds.t");
      LoadTableFromUri "gs://bucket/data/f.csv.utf8" "proj.ds.t"
        {| bigquery.source_format := Some bigquery.CSV;
           bigquery.write_disposition := Some bigquery.WRITE_TRUNCATE;
           bigquery.skip_leading_rows := Some 1;
           bigquery.encoding := Some bigquery.UTF_8;
           bigquery.field_delimiter := Some ";";
           bigquery.date_format := None;
           bigquery.datetime_format := None;
           bigquery.schema := None;
           bigquery.autodetect := Some true |};
      JobResult Sample.job_done;
      GetTable "proj.ds.t";
      Printed (MsgRows 3 "proj.ds.t");
      Printed (MsgSize 42);
      Delete "bucket" "data/f.csv.utf8";
      Printed (MsgTempDeleted "data/f.csv.utf8")],
     Returns "proj.ds.t").
Proof. reflexivity. Qed.

(** ** The semicolon scenario *)

(** C5, as amended: the call with source "data/f.csv", table "t", project
    "proj", dataset "ds", bucket "bucket", no encoding, delimiter ";",
    write disposition WRITE_TRUNCATE and no schema submits one job, with
    source URI gs://bucket/data/f.csv, field delimiter ";", autodetect set
    to true and the encoding field left unset; when the job engine accepts
    the job, the wait returns and the table is found, the call returns
    "proj.ds.t". *)
Theorem semicolon_scenario
    bq_client skip_leading_rows date_format datetime_format storage_client
    job table :
  bigquery.load_table_from_uri bq_client "gs://bucket/data/f.csv" "proj.ds.t"
    (csv_job_config bigquery.WRITE_TRUNCATE skip_leading_rows None (Some ";")
       date_format datetime_format None) = Returns job ->
  bigquery.result job = Returns tt ->
  bigquery.get_table bq_client "proj.ds.t" = Returns table ->
  let r := load_csv_from_gcs "data/f.csv" "t" bq_client "proj" "ds" "bucket"
             None skip_leading_rows "WRITE_TRUNCATE" None (Some ";")
             date_format datetime_format storage_client in
  ending r = Returns "proj.ds.t" /\
  exists cfg,
    submissions (trace r) = [("gs://bucket/data/f.csv", cfg)] /\
    bigquery.field_delimiter cfg = Some ";" /\
    bigquery.encoding cfg = None /\
    bigquery.autodetect cfg = Some true.
Proof.
  intros Hjob Hres Htab r. split.
  - subst r. unfold load_csv_from_gcs.
    rewrite stage_source_direct by reflexivity. cbn.
    change (gs_uri "bucket" "data/f.csv") with "gs://bucket/data/f.csv".
    change (table_id_of "proj" "ds" "t") with "proj.ds.t".
    rewrite Hjob. cbn. rewrite Hres. cbn. rewrite Htab. reflexivity.
  - eexists. split; [|split; [|split]].
    + subst r. apply direct_submission; reflexivity.
    + rewrite csv_job_config_field_delimiter. reflexivity.
    + rewrite csv_job_config_encoding. reflexivity.
    + rewrite csv_job_config_autodetect. reflexivity.
Qed.

Lemma semicolon_scenario_witness :
  bigquery.load_table_from_uri Sample.bq_ok "gs://bucket/data/f.csv" "proj.ds.t"
    (csv_job_config bigquery.WRITE_TRUNCATE 1 None (Some ";") None None None)
    = Returns Sample.job_done /\
  bigquery.result Sample.job_done = Returns tt /\
  bigquery.get_table Sample.bq_ok "proj.ds.t" = Returns Sample.loaded /\
  let r := load_csv_from_gcs "data/f.csv" "t" Sample.bq_ok "proj" "ds" "bucket"
             None 1 "WRITE_TRUNCATE" None (Some ";") None None None in
  ending r = Returns "proj.ds.t" /\
  exists cfg,
    submissions (trace r) = [("gs://bucket/data/f.csv", cfg)] /\
    bigquery.field_delimiter cfg = Some ";" /\
    bigquery.encoding cfg = None /\
    bigquery.autodetect cfg = Some true.
Proof.
  split; [reflexivity|]. split; [reflexivity|]. split; [reflexivity|].
  apply (semicolon_scenario Sample.bq_ok 1 None None None Sample.job_done
           Sample.loaded); reflexivity.
Defined.

(** C5, as stated, fails: in the scenario the configuration submitted to
    the job engine does not carry the UTF-8 encoding; its encoding field
    was never assigned. *)
Lemma semicolon_scenario_encoding_unset :
  let r := load_csv_from_gcs "data/f.csv" "t" Sample.bq_ok "proj" "ds" "bucket"
             None 1 "WRITE_TRUNCATE" None (Some ";") None None None in
  ending r = Returns "proj.ds.t" /\
  exists cfg,
    submissions (trace r) = [("gs://bucket/data/f.csv", cfg)] /\
    bigquery.encoding cfg <> Some bigquery.UTF_8.
Proof.
  cbn. split; [reflexivity|].
  eexists. split; [reflexivity|]. cbn. discriminate.
Qed.

(** ** The encoding field *)

(** C6, as amended: for every non-empty encoding string that does not
    trigger the conversion (and a write disposition that names a member of
    the enumeration), the one configuration submitted has its encoding
    field set: to UTF-8 when the string is, up to case, "utf-8" or "utf8";
    to ISO-8859-1 when it is, up to case, "latin-1" or "iso-8859-1"; to
    UTF-8 for any other string. *)
Theorem supplied_encoding_is_mapped
    gcs_path table_name bq_client project_id dataset_id bucket_name schema
    skip_leading_rows write_disposition e sep date_format datetime_format
    storage_client wd :
  e <> "" ->
  needs_utf16_conversion (Some e) = false ->
  bigquery.getattr_WriteDisposition write_disposition = Returns wd ->
  let r := load_csv_from_gcs gcs_path table_name bq_client project_id
             dataset_id bucket_name schema skip_leading_rows write_disposition
             (Some e) sep date_format datetime_format storage_client in
  exists cfg,
    submissions (trace r) = [(gs_uri bucket_name gcs_path, cfg)] /\
    (PyStr.lower e = "utf-8" \/ PyStr.lower e = "utf8" ->
     bigquery.encoding cfg = Some bigquery.UTF_8) /\
    (PyStr.lower e = "latin-1" \/ PyStr.lower e = "iso-8859-1" ->
     bigquery.encoding cfg = Some bigquery.ISO_8859_1) /\
    (~ (PyStr.lower e = "utf-8" \/ PyStr.lower e = "utf8") ->
     ~ (PyStr.lower e = "latin-1" \/ PyStr.lower e = "iso-8859-1") ->
     bigquery.encoding cfg = Some bigquery.UTF_8).
Proof.
  intros He Hn Hwd r. eexists. split.
  - subst r. apply direct_submission; eassumption.
  - rewrite csv_job_config_encoding, configure_encoding_supplied by assumption.
    destruct (PyStr.in_list (PyStr.lower e) ["utf-8"; "utf8"]) eqn:Hu;
      [|destruct (PyStr.in_list (PyStr.lower e) ["latin-1"; "iso-8859-1"]) eqn:Hl].
    + apply in_list_spec in Hu. cbn in Hu.
      repeat split; try reflexivity. intuition congruence.
    + apply in_list_spec in Hl. cbn in Hl.
      assert (Hnu : ~ In (PyStr.lower e) ["utf-8"; "utf8"]).
      { rewrite <- in_list_spec. congruence. }
      cbn in Hnu. repeat split; try reflexivity; intuition congruence.
    + assert (Hnl : ~ In (PyStr.lower e) ["latin-1"; "iso-8859-1"]).
      { rewrite <- in_list_spec. congruence. }
      assert (Hnu : ~ In (PyStr.lower e) ["utf-8"; "utf8"]).
      { rewrite <- in_list_spec. congruence. }
      cbn in Hnl, Hnu. repeat split; try reflexivity; intuition congruence.
Qed.

Lemma supplied_encoding_is_mapped_witness :
  "Latin-1" <> "" /\
  needs_utf16_conversion (Some "Latin-1") = false /\
  bigquery.getattr_WriteDisposition "WRITE_APPEND" = Returns bigquery.WRITE_APPEND /\
  let r := load_csv_from_gcs "data/f.csv" "t" Sample.bq_ok "proj" "ds" "bucket"
             None 1 "WRITE_APPEND" (Some "Latin-1") None None None None in
  exists cfg,
    submissions (trace r) = [(gs_uri "bucket" "data/f.csv", cfg)] /\
    (PyStr.lower "Latin-1" = "utf-8" \/ PyStr.lower "Latin-1" = "utf8" ->
     bigquery.encoding cfg = Some bigquery.UTF_8) /\
    (PyStr.lower "Latin-1" = "latin-1" \/ PyStr.lower "Latin-1" = "iso-8859-1" ->
     bigquery.encoding cfg = Some bigquery.ISO_8859_1) /\
    (~ (PyStr.lower "Latin-1" = "utf-8" \/ PyStr.lower "Latin-1" = "utf8") ->
     ~ (PyStr.lower "Latin-1" = "latin-1" \/ PyStr.lower "Latin-1" = "iso-8859-1") ->
     bigquery.encoding cfg = Some bigquery.UTF_8).
Proof.
  split; [discriminate|]. split; [reflexivity|]. split; [reflexivity|].
  apply (supplied_encoding_is_mapped "data/f.csv" "t" Sample.bq_ok "proj" "ds"
           "bucket" None 1 "WRITE_APPEND" "Latin-1" None None None None
           bigquery.WRITE_APPEND).
  - discriminate.
  - reflexivity.
  - reflexivity.
Defined.

(** C6, as stated, fails at the empty string: it is a supplied encoding
    that is none of the named ones and triggers no conversion, yet the
    configuration submitted has no encoding at all, rather than UTF-8. *)
Lemma empty_encoding_is_not_mapped :
  let r := load_csv_from_gcs "data/f.csv" "t" Sample.bq_ok "proj" "ds" "bucket"
             None 1 "WRITE_TRUNCATE" (Some "") (Some ";") None None None in
  needs_utf16_conversion (Some "") = false /\
  exists cfg,
    submissions (trace r) = [("gs://bucket/data/f.csv", cfg)] /\
    bigquery.encoding cfg = None /\
    bigquery.encoding cfg <> Some bigquery.UTF_8.
Proof.
  cbn. split; [reflexivity|].
  eexists. split; [reflexivity|]. cbn. split; [reflexivity | discriminate].
Qed.

Example underscore_name_falls_back_to_utf8 :
  bigquery.encoding
    (csv_job_config bigquery.WRITE_TRUNCATE 1 (Some "ISO_8859_1") None None None None)
  = Some bigquery.UTF_8.
Proof. reflexivity. Qed.

(** ** The field delimiter *)



Example backslash_t_has_two_characters : String.length "\t" = 2%nat.
Proof. reflexivity. Qed.

Example tab_is_one_control_character :
  tab = String (ascii_of_nat 9) EmptyString /\ String.length tab = 1%nat.
Proof. split; reflexivity. Qed.


(** ** Cleanup of the temporary object *)

(** C8: what [load_csv_from_gcs] returns or raises does not depend on what
    the deletion of the temporary object does; whenever that deletion is
    attempted the call returns the table identifier, and when the deletion
    raises, a warning naming the temporary object and the exception is
    printed instead. *)
Theorem delete_failure_is_swallowed
    gcs_path table_name bq_client project_id dataset_id bucket_name schema
    skip_leading_rows write_disposition encoding sep date_format
    datetime_format client d1 d2 :
  let r1 := load_csv_from_gcs gcs_path table_name bq_client project_id
              dataset_id bucket_name schema skip_leading_rows write_disposition
              encoding sep date_format datetime_format
              (Some (with_delete client d1)) in
  let r2 := load_csv_from_gcs gcs_path table_name bq_client project_id
              dataset_id bucket_name schema skip_leading_rows write_disposition
              encoding sep date_format datetime_format
              (Some (with_delete client d2)) in
  ending r1 = ending r2 /\
  (forall b p,
      In (Delete b p) (trace r1) ->
      ending r1 = Returns (table_id_of project_id dataset_id table_name) /\
      (forall e, d1 b p = Raises e ->
                 In (Printed (MsgWarnDelete p e)) (trace r1))).
Proof.
  intros r1 r2. subst r1 r2. unfold load_csv_from_gcs, stage_source, cleanup.
  run_cases; (split; [reflexivity|]); intros b p Hin; in_cases Hin.
  all: injection Hin as <- <-.
  all: split; [reflexivity|]; intros e' He'.
  all: try congruence.
  all: match goal with
       | H : ?d _ _ = Raises _ |- _ => rewrite H in He'; injection He' as <-
       end.
  all: in_now.
Qed.

Lemma delete_failure_is_swallowed_witness :
  let failing := fun _ _ : string => @Raises unit (GoogleCloudError "forbidden") in
  let r1 := load_csv_from_gcs "data/f.csv" "t" Sample.bq_ok "proj" "ds" "bucket"
              None 1 "WRITE_TRUNCATE" (Some "utf-16le") (Some ";") None None
              (Some (with_delete Sample.store_ok failing)) in
  In (Delete "bucket" "data/f.csv.utf8") (trace r1) /\
  failing "bucket" "data/f.csv.utf8" = Raises (GoogleCloudError "forbidden") /\
  ending r1 = Returns "proj.ds.t" /\
  In (Printed (MsgWarnDelete "data/f.csv.utf8" (GoogleCloudError "forbidden")))
     (trace r1).
Proof.
  intros failing r1.
  assert (Hin : In (Delete "bucket" "data/f.csv.utf8") (trace r1)) by in_now.
  destruct (delete_failure_is_swallowed "data/f.csv" "t" Sample.bq_ok "proj"
              "ds" "bucket" None 1 "WRITE_TRUNCATE" (Some "utf-16le") (Some ";")
              None None Sample.store_ok failing (fun _ _ => Returns tt))
    as [_ H].
  destruct (H "bucket" "data/f.csv.utf8" Hin) as [Hend Hwarn].
  split; [exact Hin|]. split; [reflexivity|]. split; [exact Hend|].
  apply Hwarn. reflexivity.
Defined.

Example delete_failure_run :
  load_csv_from_gcs "data/f.csv" "t" Sample.bq_ok "proj" "ds" "bucket"
    None 1 "WRITE_TRUNCATE" (Some "utf-16le") (Some "\t") None None
    (Some Sample.store_delete_fails)
  = ([Printed (MsgConverting "data/f.csv");
      Download "bucket" "data/f.csv";
      Upload "bucket" "data/f.csv.utf8" Sample.utf8_body "text/plain";
      Printed (MsgConverted "data/f.csv.utf8");
      Printed (MsgLoading "gs://bucket/data/f.csv.utf8" "proj.ds.t");
      LoadTableFromUri "gs://bucket/data/f.csv.utf8" "proj.ds.t"
        (csv_job_config bigquery.WRITE_TRUNCATE 1 (Some "utf-8") (Some "\t")
           None None None);
      JobResult Sample.job_done;
      GetTable "proj.ds.t";
      Printed (MsgRows 3 "proj.ds.t");
      Printed (MsgSize 42);
      Delete "bucket" "data/f.csv.utf8";
      Printed (MsgWarnDelete "data/f.csv.utf8" (GoogleCloudError "forbidden"))],
     Returns "proj.ds.t").
Proof. reflexivity. Qed.

(** ** Failure of the load job *)

(** C9: in [load_parquet_from_gcs] and in [load_csv_from_gcs] alike, when
    the wait for the job's completion raises, the loader raises that very
    exception, and it has waited once and submitted once. *)
Theorem job_failure_is_propagated
    gcs_path table_name bq_client project_id dataset_id bucket_name schema
    primary_key skip_leading_rows write_disposition encoding sep date_format
    datetime_format storage_client job e :
  bigquery.result job = Raises e ->
  let rp := load_parquet_from_gcs gcs_path table_name bq_client project_id
              dataset_id bucket_name schema primary_key write_disposition in
  let rc := load_csv_from_gcs gcs_path table_name bq_client project_id
              dataset_id bucket_name schema skip_leading_rows write_disposition
              encoding sep date_format datetime_format storage_client in
  (In (JobResult job) (trace rp) ->
   ending rp = Raises e /\
   count is_job_result (trace rp) = 1%nat /\
   length (submissions (trace rp)) = 1%nat) /\
  (In (JobResult job) (trace rc) ->
   ending rc = Raises e /\
   count is_job_result (trace rc) = 1%nat /\
   length (submissions (trace rc)) = 1%nat).
Proof.
  intros Hres rp rc. split.
  - subst rp. clear rc. unfold load_parquet_from_gcs.
    run_cases; intros Hin; in_cases Hin.
    all: injection Hin as ->.
    all: repeat split; try reflexivity; congruence.
  - subst rc. clear rp. unfold load_csv_from_gcs, stage_source, cleanup.
    run_cases; intros Hin; in_cases Hin.
    all: injection Hin as ->.
    all: repeat split; try reflexivity; congruence.
Qed.

Lemma job_failure_is_propagated_witness :
  bigquery.result Sample.job_failed = Raises (GoogleCloudError "schema mismatch") /\
  let rp := load_parquet_from_gcs "x.parquet" "p" Sample.bq_job_fails "proj"
              "ds" "bucket" None None "WRITE_TRUNCATE" in
  let rc := load_csv_from_gcs "x.parquet" "p" Sample.bq_job_fails "proj" "ds"
              "bucket" None 1 "WRITE_TRUNCATE" None None None None None in
  (In (JobResult Sample.job_failed) (trace rp) /\
   ending rp = Raises (GoogleCloudError "schema mismatch")) /\
  (In (JobResult Sample.job_failed) (trace rc) /\
   ending rc = Raises (GoogleCloudError "schema mismatch")).
Proof.
  split; [reflexivity|]. intros rp rc.
  destruct (job_failure_is_propagated "x.parquet" "p" Sample.bq_job_fails "proj"
              "ds" "bucket" None None 1 "WRITE_TRUNCATE" None None None None
              None Sample.job_failed (GoogleCloudError "schema mismatch")
              eq_refl) as [Hp Hc].
  assert (Hinp : In (JobResult Sample.job_failed) (trace rp)) by in_now.
  assert (Hinc : In (JobResult Sample.job_failed) (trace rc)) by in_now.
  split; (split; [assumption|]).
  - exact (proj1 (Hp Hinp)).
  - exact (proj1 (Hc Hinc)).
Defined.

(** ** The primary key of a Parquet load *)

(** C10: two calls of [load_parquet_from_gcs] that differ only in
    [primary_key] perform the same remote calls in the same order, submit
    the same source URI with the same load configuration, and end the same
    way, with the same table identifier when they return. *)
Theorem primary_key_only_affects_logging
    gcs_path table_name bq_client project_id dataset_id bucket_name schema
    pk1 pk2 write_disposition :
  let r1 := load_parquet_from_gcs gcs_path table_name bq_client project_id
              dataset_id bucket_name schema pk1 write_disposition in
  let r2 := load_parquet_from_gcs gcs_path table_name bq_client project_id
              dataset_id bucket_name schema pk2 write_disposition in
  submissions (trace r1) = submissions (trace r2) /\
  remote_calls (trace r1) = remote_calls (trace r2) /\
  ending r1 = ending r2.
Proof.
  intros r1 r2. subst r1 r2. unfold load_parquet_from_gcs.
  run_cases; repeat split; reflexivity.
Qed.

Example primary_key_is_printed :
  trace (load_parquet_from_gcs "x.parquet" "p" Sample.bq_ok "proj" "ds" "bucket"
           None (Some "id") "WRITE_TRUNCATE")
  = [Printed (MsgLoading "gs://bucket/x.parquet" "proj.ds.p");
     LoadTableFromUri "gs://bucket/x.parquet" "proj.ds.p"
       {| bigquery.source_format := Some bigquery.PARQUET;
          bigquery.write_disposition := Some bigquery.WRITE_TRUNCATE;
          bigquery.skip_leading_rows := None;
          bigquery.encoding := None;
          bigquery.field_delimiter := None;
          bigquery.date_format := None;
          bigquery.datetime_format := None;
          bigquery.schema := None;
          bigquery.autodetect := Some true |};
     JobResult Sample.job_done;
     GetTable "proj.ds.p";
     Printed (MsgRows 3 "proj.ds.p");
     Printed (MsgSize 42);
     Printed (MsgPrimaryKey "id")].
Proof. reflexivity. Qed.

(** ** The temporary object when the load fails *)

Lemma temp_gcs_path_truthy gcs_path : PyStr.truthy (gcs_path ++ ".utf8") = true.
Proof. destruct gcs_path; reflexivity. Qed.

Section CleanupPaths.

Variables (gcs_path table_name : string) (bq_client : bigquery.Client).
Variables (project_id dataset_id bucket_name : string).
Variable schema : option (list bigquery.SchemaField).
Variable skip_leading_rows : Z.
Variable write_disposition : string.
Variables encoding sep date_format datetime_format : option string.
Variable storage_client : option storage.Client.

Let r := load_csv_from_gcs gcs_path table_name bq_client project_id
           dataset_id bucket_name schema skip_leading_rows write_disposition
           encoding sep date_format datetime_format storage_client.

Ltac absurd_truthy :=
  match goal with
  | H : PyStr.truthy (_ ++ ".utf8") = false |- _ =>
      rewrite temp_gcs_path_truthy in H; discriminate H
  end.

(** X10: on the path where the loader returns, each temporary object that
    was uploaded is deleted once, and the deletion is the last remote call. *)
Lemma returning_run_deletes_what_it_uploaded table_id :
  ending r = Returns table_id ->
  count is_delete (trace r) = count is_upload (trace r) /\
  (count is_upload (trace r) = 1%nat ->
   exists pre,
     remote_calls (trace r) =
       (pre ++ [GetTable (table_id_of project_id dataset_id table_name);
                Delete bucket_name (gcs_path ++ ".utf8")])%list).
Proof.
  subst r. unfold load_csv_from_gcs, stage_source, cleanup.
  run_cases; try absurd_truthy; intros Hend; try discriminate Hend.
  all: split; [reflexivity|]; intros Hup; try discriminate Hup.
  all: eexists [_; _; _; _]; reflexivity.
Qed.

(** On the path where the wait raises, nothing is deleted. *)
Lemma failed_wait_deletes_nothing job e :
  In (JobResult job) (trace r) ->
  bigquery.result job = Raises e ->
  count is_delete (trace r) = 0%nat.
Proof.
  subst r. unfold load_csv_from_gcs, stage_source, cleanup.
  run_cases; intros Hin Hres; in_cases Hin.
  all: injection Hin as ->.
  all: try reflexivity; congruence.
Qed.

(** Nor is anything deleted when the table cannot be fetched afterwards. *)
Lemma failed_get_table_deletes_nothing e :
  bigquery.get_table bq_client (table_id_of project_id dataset_id table_name)
    = Raises e ->
  count is_delete (trace r) = 0%nat.
Proof.
  subst r. unfold load_csv_from_gcs, stage_source, cleanup. intros Hget.
  run_cases; try reflexivity; congruence.
Qed.

End CleanupPaths.

(** C1: the claim does not hold of the code.  With a UTF-16LE source, a
    storage client and a job whose wait raises, the temporary object has
    been uploaded, the wait has taken place, and the run ends in the job's
    exception without any deletion having been attempted. *)
Theorem failed_job_leaves_temporary_object :
  let r := load_csv_from_gcs "data/f.csv" "t" Sample.bq_job_fails "proj" "ds"
             "bucket" None 1 "WRITE_TRUNCATE" (Some "utf-16le") (Some ";")
             None None (Some Sample.store_ok) in
  trace r =
    [Printed (MsgConverting "data/f.csv");
     Download "bucket" "data/f.csv";
     Upload "bucket" "data/f.csv.utf8" Sample.utf8_body "text/plain";
     Printed (MsgConverted "data/f.csv.utf8");
     Printed (MsgLoading "gs://bucket/data/f.csv.utf8" "proj.ds.t");
     LoadTableFromUri "gs://bucket/data/f.csv.utf8" "proj.ds.t"
       (csv_job_config bigquery.WRITE_TRUNCATE 1 (Some "utf-8") (Some ";")
          None None None);
     JobResult Sample.job_failed] /\
  count is_upload (trace r) = 1%nat /\
  count is_delete (trace r) = 0%nat /\
  ending r = Raises (GoogleCloudError "schema mismatch").
Proof. cbn. repeat split; reflexivity. Qed.

(** * Further properties of the loaders *)

(** ** The transcoding of lines 133-134 *)

(** The UTF-8 bytes of a 16-bit unit that is no surrogate are at most
    three, those of a supplementary code point are four. *)
Lemma encode_utf_8_char_bmp_length u bs :
  0 <= u < 0x10000 -> Codec.encode_utf_8_char u = Some bs ->
  (1 <= length bs <= 3)%nat.
Proof.
  intros Hu. unfold Codec.encode_utf_8_char.
  repeat step; intros [= <-]; cbn; lia.
Qed.

Lemma encode_utf_8_char_supplementary_length c bs :
  0x10000 <= c -> Codec.encode_utf_8_char c = Some bs -> length bs = 4%nat.
Proof.
  intros Hc. unfold Codec.encode_utf_8_char.
  repeat step; intros [= <-]; try reflexivity; lia.
Qed.

Lemma transcode_size_bounded n :
  forall content text utf8, (length content <= n)%nat ->
  Codec.decode_utf_16_le content = Returns text ->
  Codec.encode_utf_8 text = Returns utf8 ->
  Nat.even (length content) = true /\
  (length content <= 2 * length utf8)%nat /\
  (2 * length utf8 <= 3 * length content)%nat.
Proof.
  induction n as [|n IH]; intros content text utf8 Hlen.
  - destruct content; [|cbn in Hlen; lia]. cbn.
    intros [= <-]. cbn. intros [= <-]. cbn. repeat split; lia.
  - destruct content as [|b0 [|b1 rest]]; cbn [Codec.decode_utf_16_le].
    + intros [= <-]. cbn. intros [= <-]. cbn. repeat split; lia.
    + discriminate.
    + cbn in Hlen.
      destruct (Codec.is_high_surrogate (Codec.unit16 b0 b1)) eqn:Hhi.
      * destruct rest as [|c0 [|c1 rest']]; try discriminate.
        destruct (Codec.is_low_surrogate (Codec.unit16 c0 c1)) eqn:Hlo;
          try discriminate.
        destruct (Codec.decode_utf_16_le rest') as [t'|] eqn:Hrec;
          try discriminate.
        intros [= <-]. cbn [Codec.encode_utf_8].
        destruct (Codec.encode_utf_8_char
                    (Codec.join_surrogates (Codec.unit16 b0 b1)
                       (Codec.unit16 c0 c1))) as [bs|] eqn:Hc; try discriminate.
        destruct (Codec.encode_utf_8 t') as [r'|] eqn:Henc; try discriminate.
        intros [= <-].
        pose proof (CodecFacts.join_surrogates_supplementary _ _ Hhi Hlo) as Hge.
        pose proof (encode_utf_8_char_supplementary_length _ _ Hge Hc) as Hl.
        destruct (IH rest' t' r') as (He & Hlo' & Hhi');
          [cbn in Hlen; lia | assumption | assumption |].
        rewrite length_app, Hl. cbn [length].
        split; [exact He | lia].
      * destruct (Codec.is_low_surrogate (Codec.unit16 b0 b1)) eqn:Hlo;
          try discriminate.
        destruct (Codec.decode_utf_16_le rest) as [t'|] eqn:Hrec;
          try discriminate.
        intros [= <-]. cbn [Codec.encode_utf_8].
        destruct (Codec.encode_utf_8_char (Codec.unit16 b0 b1)) as [bs|] eqn:Hc;
          try discriminate.
        destruct (Codec.encode_utf_8 t') as [r'|] eqn:Henc; try discriminate.
        intros [= <-].
        pose proof (encode_utf_8_char_bmp_length _ _ (unit16_range b0 b1) Hc) as Hl.
        destruct (IH rest t' r') as (He & Hlo' & Hhi');
          [lia | assumption | assumption |].
        rewrite length_app. cbn [length].
        split; [exact He | lia].
Qed.

(** X1: when the bytes of the source decode as UTF-16LE, their number is
    even and the UTF-8 bytes that replace them are at least half and at
    most one and a half times as many. *)
Theorem transcoded_size content text utf8 :
  Codec.decode_utf_16_le content = Returns text ->
  Codec.encode_utf_8 text = Returns utf8 ->
  Nat.even (length content) = true /\
  (length content <= 2 * length utf8)%nat /\
  (2 * length utf8 <= 3 * length content)%nat.
Proof.
  intros Hdec Henc.
  exact (transcode_size_bounded (length content) content text utf8
           (le_n _) Hdec Henc).
Qed.

Lemma transcoded_size_witness :
  Codec.decode_utf_16_le [xe9; x00; xac; x20; x3d; xd8; x00; xde]
    = Returns [0xe9; 0x20ac; 0x1f600] /\
  Codec.encode_utf_8 [0xe9; 0x20ac; 0x1f600]
    = Returns [xc3; xa9; xe2; x82; xac; xf0; x9f; x98; x80] /\
  Nat.even 8 = true /\ (8 <= 2 * 9)%nat /\ (2 * 9 <= 3 * 8)%nat.
Proof.
  split; [reflexivity|]. split; [reflexivity|].
  apply (transcoded_size [xe9; x00; xac; x20; x3d; xd8; x00; xde]
           [0xe9; 0x20ac; 0x1f600]
           [xc3; xa9; xe2; x82; xac; xf0; x9f; x98; x80]); reflexivity.
Defined.

Lemma decode_widen_ascii bs :
  Forall (fun b => Codec.byte_val b < 0x80) bs ->
  Codec.decode_utf_16_le (widen_ascii bs) = Returns (map Codec.byte_val bs).
Proof.
  induction 1 as [|b bs Hb _ IH]; [reflexivity|].
  cbn [widen_ascii flat_map app map Codec.decode_utf_16_le].
  fold (widen_ascii bs). rewrite IH.
  assert (Hu : Codec.unit16 b x00 = Codec.byte_val b).
  { unfold Codec.unit16. change (Codec.byte_val x00) with 0.
    rewrite Z.shiftl_0_l. apply Z.lor_0_r. }
  rewrite Hu. pose proof (byte_val_range b).
  unfold Codec.is_high_surrogate, Codec.is_low_surrogate.
  replace (0xD800 <=? Codec.byte_val b) with false by (symmetry; apply Z.leb_gt; lia).
  replace (0xDC00 <=? Codec.byte_val b) with false by (symmetry; apply Z.leb_gt; lia).
  reflexivity.
Qed.

Lemma encode_ascii bs :
  Forall (fun b => Codec.byte_val b < 0x80) bs ->
  Codec.encode_utf_8 (map Codec.byte_val bs) = Returns bs.
Proof.
  induction 1 as [|b bs Hb _ IH]; [reflexivity|].
  cbn [map Codec.encode_utf_8]. rewrite IH.
  unfold Codec.encode_utf_8_char.
  replace (Codec.byte_val b <? 0x80) with true by (symmetry; apply Z.ltb_lt; lia).
  rewrite byte_of_Z_byte_val. reflexivity.
Qed.

(** X2: a source made of ASCII characters only, each stored as its byte
    followed by a zero byte, is transcoded to exactly those bytes. *)
Theorem ascii_text_survives_transcoding bs :
  Forall (fun b => Codec.byte_val b < 0x80) bs ->
  exists text,
    Codec.decode_utf_16_le (widen_ascii bs) = Returns text /\
    Codec.encode_utf_8 text = Returns bs.
Proof.
  intros H. exists (map Codec.byte_val bs). split.
  - now apply decode_widen_ascii.
  - now apply encode_ascii.
Qed.

Lemma ascii_text_survives_transcoding_witness :
  Forall (fun b => Codec.byte_val b < 0x80) Sample.utf8_body /\
  exists text,
    Codec.decode_utf_16_le (widen_ascii Sample.utf8_body) = Returns text /\
    Codec.encode_utf_8 text = Returns Sample.utf8_body.
Proof.
  assert (H : Forall (fun b => Codec.byte_val b < 0x80) Sample.utf8_body).
  { repeat constructor. }
  split; [exact H|].
  exact (ascii_text_survives_transcoding Sample.utf8_body H).
Defined.

Example widen_sample : widen_ascii Sample.utf8_body = Sample.utf16_body.
Proof. reflexivity. Qed.

(** ** Case of the encoding name *)

Lemma lower_char_idempotent c :
  PyStr.lower_char (PyStr.lower_char c) = PyStr.lower_char c.
Proof.
  destruct c as [[] [] [] [] [] [] [] []]; reflexivity.
Qed.

Lemma lower_idempotent s : PyStr.lower (PyStr.lower s) = PyStr.lower s.
Proof.
  induction s as [|c s IH]; cbn; [reflexivity|].
  now rewrite lower_char_idempotent, IH.
Qed.

Lemma truthy_lower s : PyStr.truthy (PyStr.lower s) = PyStr.truthy s.
Proof. destruct s; reflexivity. Qed.

Lemma needs_utf16_conversion_lower e :
  needs_utf16_conversion (Some (PyStr.lower e)) = needs_utf16_conversion (Some e).
Proof.
  unfold needs_utf16_conversion. now rewrite truthy_lower, lower_idempotent.
Qed.

Lemma csv_job_config_lower wd skip e sep date_format datetime_format schema :
  csv_job_config wd skip (Some (PyStr.lower e)) sep date_format datetime_format
    schema
  = csv_job_config wd skip (Some e) sep date_format datetime_format schema.
Proof.
  unfold csv_job_config, configure_encoding.
  now rewrite truthy_lower, lower_idempotent.
Qed.

(** X3: the case of the letters of the encoding name has no effect at all:
    a call with an encoding and the same call with that encoding in lower
    case perform the same calls, print the same messages and end the same
    way. *)
Theorem encoding_case_is_irrelevant
    gcs_path table_name bq_client project_id dataset_id bucket_name schema
    skip_leading_rows write_disposition e sep date_format datetime_format
    storage_client :
  load_csv_from_gcs gcs_path table_name bq_client project_id dataset_id
    bucket_name schema skip_leading_rows write_disposition (Some e) sep
    date_format datetime_format storage_client
  = load_csv_from_gcs gcs_path table_name bq_client project_id dataset_id
      bucket_name schema skip_leading_rows write_disposition
      (Some (PyStr.lower e)) sep date_format datetime_format storage_client.
Proof.
  unfold load_csv_from_gcs, stage_source.
  rewrite needs_utf16_conversion_lower.
  destruct (needs_utf16_conversion (Some e)); [reflexivity|].
  cbn.
  destruct (bigquery.getattr_WriteDisposition write_disposition); cbn;
    [rewrite !csv_job_config_lower|]; reflexivity.
Qed.

(** ** Which objects of the store are touched *)

Lemma length_append s t :
  String.length (s ++ t) = (String.length s + String.length t)%nat.
Proof. induction s as [|c s IH]; cbn; [reflexivity | now rewrite IH]. Qed.

Lemma temp_gcs_path_is_fresh gcs_path : gcs_path ++ ".utf8" <> gcs_path.
Proof.
  intros H. apply (f_equal String.length) in H.
  rewrite length_append in H. cbn in H. lia.
Qed.

(** X4: the only object [load_csv_from_gcs] ever downloads is the source
    object of the given bucket; the only object it ever uploads or deletes
    is gcs_path + ".utf8" in that bucket, which is never the source object
    itself, and an upload is always of content type text/plain. *)
Theorem store_operations_stay_on_source_and_temp
    gcs_path table_name bq_client project_id dataset_id bucket_name schema
    skip_leading_rows write_disposition encoding sep date_format
    datetime_format storage_client :
  let r := load_csv_from_gcs gcs_path table_name bq_client project_id
             dataset_id bucket_name schema skip_leading_rows write_disposition
             encoding sep date_format datetime_format storage_client in
  gcs_path ++ ".utf8" <> gcs_path /\
  Forall (fun ev =>
            match ev with
            | Download b p => b = bucket_name /\ p = gcs_path
            | Upload b p _ ct =>
                b = bucket_name /\ p = gcs_path ++ ".utf8" /\ ct = "text/plain"
            | Delete b p => b = bucket_name /\ p = gcs_path ++ ".utf8"
            | _ => True
            end)
         (trace r).
Proof.
  intros r. split; [apply temp_gcs_path_is_fresh|].
  subst r. unfold load_csv_from_gcs, stage_source, cleanup.
  run_cases; repeat constructor.
Qed.

(** ** Failures on the way *)

Section FailurePaths.

Variables (gcs_path table_name : string) (bq_client : bigquery.Client).
Variables (project_id dataset_id bucket_name : string).
Variable schema : option (list bigquery.SchemaField).
Variable primary_key : option string.
Variable skip_leading_rows : Z.
Variable write_disposition : string.
Variables encoding sep date_format datetime_format : option string.

Let csv storage_client :=
  load_csv_from_gcs gcs_path table_name bq_client project_id dataset_id
    bucket_name schema skip_leading_rows write_disposition encoding sep
    date_format datetime_format storage_client.

Let parquet :=
  load_parquet_from_gcs gcs_path table_name bq_client project_id dataset_id
    bucket_name schema primary_key write_disposition.

(** X5: when the source cannot be downloaded, or its bytes are not valid
    UTF-16LE, the conversion ends the call with that exception right after
    the download: nothing is uploaded and no job is submitted. *)
Theorem failed_conversion_aborts_before_load client e :
  needs_utf16_conversion encoding = true ->
  storage.download_as_bytes client bucket_name gcs_path = Raises e \/
  (exists content,
      storage.download_as_bytes client bucket_name gcs_path = Returns content /\
      Codec.decode_utf_16_le content = Raises e) ->
  csv (Some client) =
    ([Printed (MsgConverting gcs_path); Download bucket_name gcs_path], Raises e).
Proof.
  intros Hn H. subst csv. cbv beta.
  unfold load_csv_from_gcs, stage_source. rewrite Hn. cbn.
  destruct H as [Hdl | (content & Hdl & Hdec)]; rewrite Hdl; cbn.
  - reflexivity.
  - rewrite Hdec. reflexivity.
Qed.

(** X6: when the upload of the converted bytes raises, the call ends with
    that exception right after the upload attempt: no job is submitted and
    no deletion is attempted. *)
Theorem failed_upload_aborts_before_load client content text utf8 e :
  needs_utf16_conversion encoding = true ->
  storage.download_as_bytes client bucket_name gcs_path = Returns content ->
  Codec.decode_utf_16_le content = Returns text ->
  Codec.encode_utf_8 text = Returns utf8 ->
  storage.upload_from_string client bucket_name (gcs_path ++ ".utf8") utf8
    "text/plain" = Raises e ->
  csv (Some client) =
    ([Printed (MsgConverting gcs_path);
      Download bucket_name gcs_path;
      Upload bucket_name (gcs_path ++ ".utf8") utf8 "text/plain"],
     Raises e).
Proof.
  intros Hn Hdl Hdec Henc Hup. subst csv. cbv beta.
  unfold load_csv_from_gcs, stage_source. rewrite Hn. cbn.
  rewrite Hdl. cbn. rewrite Hdec. cbn. rewrite Henc. cbn. rewrite Hup.
  reflexivity.
Qed.

(** X7: a run of [load_csv_from_gcs] that ends in an exception, whichever
    it is and wherever it was raised, has attempted no deletion; so a
    temporary object uploaded before the failure stays in the bucket. *)
Theorem raising_run_deletes_nothing storage_client e :
  ending (csv storage_client) = Raises e ->
  count is_delete (trace (csv storage_client)) = 0%nat.
Proof.
  subst csv. cbv beta. unfold load_csv_from_gcs, stage_source, cleanup.
  run_cases; intros Hend; try reflexivity; discriminate Hend.
Qed.

(** X8: in both loaders, when the submission of the job raises, the loader
    raises that very exception and neither waits for a job nor fetches the
    table afterwards. *)
Theorem failed_submission_is_propagated storage_client u t cfg e :
  bigquery.load_table_from_uri bq_client u t cfg = Raises e ->
  (In (LoadTableFromUri u t cfg) (trace parquet) ->
   ending parquet = Raises e /\
   count is_job_result (trace parquet) = 0%nat /\
   ~ In (GetTable t) (trace parquet)) /\
  (In (LoadTableFromUri u t cfg) (trace (csv storage_client)) ->
   ending (csv storage_client) = Raises e /\
   count is_job_result (trace (csv storage_client)) = 0%nat /\
   ~ In (GetTable t) (trace (csv storage_client))).
Proof.
  intros Hsub. split.
  - subst parquet. unfold load_parquet_from_gcs.
    run_cases; intros Hin; in_cases Hin.
    all: injection Hin as <- <- <-.
    all: try congruence.
    all: split; [congruence|]; split; [reflexivity|].
    all: intros Hg; in_cases Hg.
  - subst csv. cbv beta. unfold load_csv_from_gcs, stage_source, cleanup.
    run_cases; intros Hin; in_cases Hin.
    all: injection Hin as <- <- <-.
    all: try congruence.
    all: split; [congruence|]; split; [reflexivity|].
    all: intros Hg; in_cases Hg.
Qed.

(** X9: in both loaders, when the job has completed but the table cannot
    be fetched afterwards, the loader raises the exception of that fetch
    although a job was waited for and its wait returned. *)
Theorem failed_get_table_is_propagated storage_client t e :
  bigquery.get_table bq_client t = Raises e ->
  (In (GetTable t) (trace parquet) ->
   ending parquet = Raises e /\
   exists job, In (JobResult job) (trace parquet) /\
               bigquery.result job = Returns tt) /\
  (In (GetTable t) (trace (csv storage_client)) ->
   ending (csv storage_client) = Raises e /\
   exists job, In (JobResult job) (trace (csv storage_client)) /\
               bigquery.result job = Returns tt).
Proof.
  intros Hget. split.
  - subst parquet. unfold load_parquet_from_gcs.
    run_cases; intros Hin; in_cases Hin.
    all: injection Hin as <-.
    all: try congruence.
    all: split; [congruence|].
    all: match goal with
         | H : bigquery.result ?j = Returns ?x |- _ =>
             exists j; destruct x; split; [in_now | exact H]
         end.
  - subst csv. cbv beta. unfold load_csv_from_gcs, stage_source, cleanup.
    run_cases; intros Hin; in_cases Hin.
    all: injection Hin as <-.
    all: try congruence.
    all: split; [congruence|].
    all: match goal with
         | H : bigquery.result ?j = Returns ?x |- _ =>
             exists j; destruct x; split; [in_now | exact H]
         end.
Qed.

End FailurePaths.

Lemma failed_conversion_aborts_before_load_witness :
  needs_utf16_conversion (Some "UTF-16-LE") = true /\
  (storage.download_as_bytes Faulty.store_odd_body "bucket" "data/f.csv"
     = Raises (UnicodeDecodeError "utf-16-le") \/
   exists content,
     storage.download_as_bytes Faulty.store_odd_body "bucket" "data/f.csv"
       = Returns content /\
     Codec.decode_utf_16_le content = Raises (UnicodeDecodeError "utf-16-le")) /\
  load_csv_from_gcs "data/f.csv" "t" Sample.bq_ok "proj" "ds" "bucket" None 1
    "WRITE_TRUNCATE" (Some "UTF-16-LE") (Some ";") None None
    (Some Faulty.store_odd_body)
  = ([Printed (MsgConverting "data/f.csv"); Download "bucket" "data/f.csv"],
     Raises (UnicodeDecodeError "utf-16-le")).
Proof.
  assert (H : storage.download_as_bytes Faulty.store_odd_body "bucket" "data/f.csv"
                = Raises (UnicodeDecodeError "utf-16-le") \/
              exists content,
                storage.download_as_bytes Faulty.store_odd_body "bucket"
                  "data/f.csv" = Returns content /\
                Codec.decode_utf_16_le content
                  = Raises (UnicodeDecodeError "utf-16-le")).
  { right. exists [x61; x00; x3b]. split; reflexivity. }
  split; [reflexivity|]. split; [exact H|].
  exact (failed_conversion_aborts_before_load "data/f.csv" "t" Sample.bq_ok
           "proj" "ds" "bucket" None 1 "WRITE_TRUNCATE" (Some "UTF-16-LE")
           (Some ";") None None Faulty.store_odd_body
           (UnicodeDecodeError "utf-16-le") eq_refl H).
Defined.

Example missing_source_run :
  load_csv_from_gcs "data/f.csv" "t" Sample.bq_ok "proj" "ds" "bucket" None 1
    "WRITE_TRUNCATE" (Some "utf-16le") None None None
    (Some Faulty.store_no_source)
  = ([Printed (MsgConverting "data/f.csv"); Download "bucket" "data/f.csv"],
     Raises (GoogleCloudError "not found")).
Proof. reflexivity. Qed.

Lemma failed_upload_aborts_before_load_witness :
  needs_utf16_conversion (Some "utf-16le") = true /\
  storage.download_as_bytes Faulty.store_read_only "bucket" "data/f.csv"
    = Returns Sample.utf16_body /\
  Codec.decode_utf_16_le Sample.utf16_body = Returns [0x61; 0x3b; 0x62] /\
  Codec.encode_utf_8 [0x61; 0x3b; 0x62] = Returns Sample.utf8_body /\
  storage.upload_from_string Faulty.store_read_only "bucket"
    ("data/f.csv" ++ ".utf8") Sample.utf8_body "text/plain"
    = Raises (GoogleCloudError "read only") /\
  load_csv_from_gcs "data/f.csv" "t" Sample.bq_ok "proj" "ds" "bucket" None 1
    "WRITE_TRUNCATE" (Some "utf-16le") (Some ";") None None
    (Some Faulty.store_read_only)
  = ([Printed (MsgConverting "data/f.csv");
      Download "bucket" "data/f.csv";
      Upload "bucket" ("data/f.csv" ++ ".utf8") Sample.utf8_body "text/plain"],
     Raises (GoogleCloudError "read only")).
Proof.
  repeat (split; [reflexivity|]).
  exact (failed_upload_aborts_before_load "data/f.csv" "t" Sample.bq_ok "proj"
           "ds" "bucket" None 1 "WRITE_TRUNCATE" (Some "utf-16le") (Some ";")
           None None Faulty.store_read_only Sample.utf16_body
           [0x61; 0x3b; 0x62] Sample.utf8_body (GoogleCloudError "read only")
           eq_refl eq_refl eq_refl eq_refl eq_refl).
Defined.

Lemma raising_run_deletes_nothing_witness :
  let r := load_csv_from_gcs "data/f.csv" "t" Faulty.bq_no_table "proj" "ds"
             "bucket" None 1 "WRITE_TRUNCATE" (Some "utf-16le") (Some ";")
             None None (Some Sample.store_ok) in
  ending r = Raises (GoogleCloudError "table not found") /\
  count is_upload (trace r) = 1%nat /\
  count is_delete (trace r) = 0%nat.
Proof.
  intros r. split; [reflexivity|]. split; [reflexivity|].
  exact (raising_run_deletes_nothing "data/f.csv" "t" Faulty.bq_no_table "proj"
           "ds" "bucket" None 1 "WRITE_TRUNCATE" (Some "utf-16le") (Some ";")
           None None (Some Sample.store_ok)
           (GoogleCloudError "table not found") eq_refl).
Defined.

Lemma failed_submission_is_propagated_witness :
  let cfg := csv_job_config bigquery.WRITE_APPEND 1 None None None None None in
  let rc := load_csv_from_gcs "data/f.csv" "t" Faulty.bq_rejects "proj" "ds"
              "bucket" None 1 "WRITE_APPEND" None None None None None in
  bigquery.load_table_from_uri Faulty.bq_rejects "gs://bucket/data/f.csv"
    "proj.ds.t" cfg = Raises (GoogleCloudError "permission denied") /\
  In (LoadTableFromUri "gs://bucket/data/f.csv" "proj.ds.t" cfg) (trace rc) /\
  ending rc = Raises (GoogleCloudError "permission denied") /\
  count is_job_result (trace rc) = 0%nat /\
  ~ In (GetTable "proj.ds.t") (trace rc).
Proof.
  intros cfg rc. split; [reflexivity|].
  assert (Hin : In (LoadTableFromUri "gs://bucket/data/f.csv" "proj.ds.t" cfg)
                   (trace rc)) by in_now.
  split; [exact Hin|].
  exact (proj2 (failed_submission_is_propagated "data/f.csv" "t"
                  Faulty.bq_rejects "proj" "ds" "bucket" None None 1
                  "WRITE_APPEND" None None None None None
                  "gs://bucket/data/f.csv" "proj.ds.t" cfg
                  (GoogleCloudError "permission denied") eq_refl) Hin).
Defined.

Lemma failed_get_table_is_propagated_witness :
  let rp := load_parquet_from_gcs "x.parquet" "p" Faulty.bq_no_table "proj"
              "ds" "bucket" None (Some "id") "WRITE_TRUNCATE" in
  bigquery.get_table Faulty.bq_no_table "proj.ds.p"
    = Raises (GoogleCloudError "table not found") /\
  In (GetTable "proj.ds.p") (trace rp) /\
  ending rp = Raises (GoogleCloudError "table not found") /\
  exists job, In (JobResult job) (trace rp) /\ bigquery.result job = Returns tt.
Proof.
  intros rp. split; [reflexivity|].
  assert (Hin : In (GetTable "proj.ds.p") (trace rp)) by in_now.
  split; [exact Hin|].
  exact (proj1 (failed_get_table_is_propagated "x.parquet" "p"
                  Faulty.bq_no_table "proj" "ds" "bucket" None (Some "id") 1
                  "WRITE_TRUNCATE" None None None None None "proj.ds.p"
                  (GoogleCloudError "table not found") eq_refl) Hin).
Defined.

Lemma returning_run_deletes_what_it_uploaded_witness :
  let r := load_csv_from_gcs "data/f.csv" "t" Sample.bq_ok "proj" "ds" "bucket"
             None 1 "WRITE_TRUNCATE" (Some "utf-16le") (Some ";") None None
             (Some Sample.store_delete_fails) in
  ending r = Returns "proj.ds.t" /\
  count is_delete (trace r) = count is_upload (trace r) /\
  (count is_upload (trace r) = 1%nat ->
   exists pre,
     remote_calls (trace r) =
       (pre ++ [GetTable (table_id_of "proj" "ds" "t");
                Delete "bucket" ("data/f.csv" ++ ".utf8")])%list).
Proof.
  intros r. split; [reflexivity|].
  exact (returning_run_deletes_what_it_uploaded "data/f.csv" "t" Sample.bq_ok
           "proj" "ds" "bucket" None 1 "WRITE_TRUNCATE" (Some "utf-16le")
           (Some ";") None None (Some Sample.store_delete_fails) "proj.ds.t"
           eq_refl).
Defined.

(** ** What reaches the job engine *)

Section Submissions.

Variables (gcs_path table_name : string) (bq_client : bigquery.Client).
Variables (project_id dataset_id bucket_name : string).
Variable schema : option (list bigquery.SchemaField).
Variable primary_key : option string.
Variable skip_leading_rows : Z.
Variable write_disposition : string.
Variables encoding sep date_format datetime_format : option string.
Variable storage_client : option storage.Client.

Let csv :=
  load_csv_from_gcs gcs_path table_name bq_client project_id dataset_id
    bucket_name schema skip_leading_rows write_disposition encoding sep
    date_format datetime_format storage_client.

Let parquet :=
  load_parquet_from_gcs gcs_path table_name bq_client project_id dataset_id
    bucket_name schema primary_key write_disposition.

Lemma parquet_submissions_shape s :
  In s (submissions (trace parquet)) ->
  exists wd,
    bigquery.getattr_WriteDisposition write_disposition = Returns wd /\
    s = (gs_uri bucket_name gcs_path,
         apply_schema (bigquery.new_config bigquery.PARQUET wd None) schema).
Proof.
  subst parquet. unfold load_parquet_from_gcs.
  run_cases; intros Hin; in_cases Hin; subst s; eexists; split; reflexivity.
Qed.

Lemma parquet_submits_once wd :
  bigquery.getattr_WriteDisposition write_disposition = Returns wd ->
  submissions (trace parquet) =
    [(gs_uri bucket_name gcs_path,
      apply_schema (bigquery.new_config bigquery.PARQUET wd None) schema)].
Proof.
  intros Hwd. subst parquet. unfold load_parquet_from_gcs. cbn.
  rewrite Hwd. run_cases; reflexivity.
Qed.

Lemma csv_submissions_shape s :
  In s (submissions (trace csv)) ->
  exists wd enc,
    bigquery.getattr_WriteDisposition write_disposition = Returns wd /\
    snd s = csv_job_config wd skip_leading_rows enc sep date_format
              datetime_format schema.
Proof.
  subst csv. unfold load_csv_from_gcs, stage_source, cleanup.
  run_cases; intros Hin; in_cases Hin; subst s; do 2 eexists; split; reflexivity.
Qed.

(** X11: in both loaders every configuration submitted carries the write
    disposition that the given name denotes, WRITE_TRUNCATE and
    WRITE_APPEND included; the Parquet loader then submits exactly once. *)
Theorem write_disposition_is_honoured wd :
  bigquery.getattr_WriteDisposition write_disposition = Returns wd ->
  length (submissions (trace parquet)) = 1%nat /\
  Forall (fun s => bigquery.write_disposition (snd s) = Some wd)
         (submissions (trace parquet)) /\
  Forall (fun s => bigquery.write_disposition (snd s) = Some wd)
         (submissions (trace csv)).
Proof.
  intros Hwd. split; [|split].
  - rewrite (parquet_submits_once wd Hwd). reflexivity.
  - apply Forall_forall. intros s Hin.
    apply parquet_submissions_shape in Hin as (wd' & Hwd' & ->).
    rewrite Hwd in Hwd'. injection Hwd' as <-.
    cbn [snd]. unfold apply_schema. destruct schema as [[|f fs]|]; reflexivity.
  - apply Forall_forall. intros s Hin.
    apply csv_submissions_shape in Hin as (wd' & enc & Hwd' & ->).
    rewrite Hwd in Hwd'. injection Hwd' as <-.
    apply csv_job_config_write_disposition.
Qed.

(** X12: in both loaders a non-empty schema is submitted as it is, with
    autodetect left unset; an absent or empty schema is not submitted, and
    autodetect is set to true instead. *)
Theorem schema_or_autodetect :
  Forall (fun s =>
            match schema with
            | Some (f :: fs) =>
                bigquery.schema (snd s) = Some (f :: fs) /\
                bigquery.autodetect (snd s) = None
            | _ =>
                bigquery.schema (snd s) = None /\
                bigquery.autodetect (snd s) = Some true
            end)
         (submissions (trace parquet) ++ submissions (trace csv))%list.
Proof.
  apply Forall_app. split; apply Forall_forall; intros s Hin.
  - apply parquet_submissions_shape in Hin as (wd & _ & ->). cbn [snd].
    unfold apply_schema. destruct schema as [[|f fs]|]; split; reflexivity.
  - apply csv_submissions_shape in Hin as (wd & enc & _ & ->).
    unfold csv_job_config, apply_schema, configure_datetime_format,
      configure_date_format, configure_sep, configure_encoding.
    destruct schema as [[|f fs]|]; repeat step; split; reflexivity.
Qed.

(** X13: every configuration that [load_csv_from_gcs] submits has the CSV
    format and the given number of rows to skip, and has each of the date
    and datetime formats exactly as given when it is a non-empty string
    and unset otherwise; none of these is disturbed by the other options. *)
Theorem csv_options_pass_through :
  Forall (fun s =>
            bigquery.source_format (snd s) = Some bigquery.CSV /\
            bigquery.skip_leading_rows (snd s) = Some skip_leading_rows /\
            bigquery.date_format (snd s) =
              (if PyStr.truthy_opt date_format then date_format else None) /\
            bigquery.datetime_format (snd s) =
              (if PyStr.truthy_opt datetime_format then datetime_format
               else None))
         (submissions (trace csv)).
Proof.
  apply Forall_forall. intros s Hin.
  apply csv_submissions_shape in Hin as (wd & enc & _ & ->).
  unfold csv_job_config, apply_schema, configure_datetime_format,
    configure_date_format, configure_sep, configure_encoding.
  destruct schema as [[|f fs]|], date_format as [df|], datetime_format as [dtf|];
    cbn [PyStr.truthy_opt]; repeat step; repeat split; reflexivity.
Qed.

(** X14: every configuration that [load_parquet_from_gcs] submits has the
    Parquet format and none of the CSV options: no rows to skip, no
    encoding, no field delimiter, no date or datetime format. *)
Theorem parquet_has_no_csv_options :
  Forall (fun s =>
            bigquery.source_format (snd s) = Some bigquery.PARQUET /\
            bigquery.skip_leading_rows (snd s) = None /\
            bigquery.encoding (snd s) = None /\
            bigquery.field_delimiter (snd s) = None /\
            bigquery.date_format (snd s) = None /\
            bigquery.datetime_format (snd s) = None)
         (submissions (trace parquet)).
Proof.
  apply Forall_forall. intros s Hin.
  apply parquet_submissions_shape in Hin as (wd & _ & ->). cbn [snd].
  unfold apply_schema. destruct schema as [[|f fs]|]; repeat split; reflexivity.
Qed.

End Submissions.

Lemma write_disposition_is_honoured_witness :
  bigquery.getattr_WriteDisposition "WRITE_APPEND" = Returns bigquery.WRITE_APPEND /\
  let rp := load_parquet_from_gcs "x.parquet" "p" Sample.bq_ok "proj" "ds"
              "bucket" None None "WRITE_APPEND" in
  let rc := load_csv_from_gcs "x.parquet" "p" Sample.bq_ok "proj" "ds" "bucket"
              None 1 "WRITE_APPEND" None None None None None in
  length (submissions (trace rp)) = 1%nat /\
  Forall (fun s => bigquery.write_disposition (snd s) = Some bigquery.WRITE_APPEND)
         (submissions (trace rp)) /\
  Forall (fun s => bigquery.write_disposition (snd s) = Some bigquery.WRITE_APPEND)
         (submissions (trace rc)).
Proof.
  split; [reflexivity|].
  exact (write_disposition_is_honoured "x.parquet" "p" Sample.bq_ok "proj" "ds"
           "bucket" None None 1 "WRITE_APPEND" None None None None None
           bigquery.WRITE_APPEND eq_refl).
Defined.

(** ** When a loader returns *)

(** X15: when [load_parquet_from_gcs] returns, it returns
    project.dataset.table, it has submitted exactly one job, for the source
    gs://{bucket_name}/{gcs_path}, that job's wait has returned and the
    table could be fetched. *)
Theorem parquet_returns_table_id
    gcs_path table_name bq_client project_id dataset_id bucket_name schema
    primary_key write_disposition v :
  let r := load_parquet_from_gcs gcs_path table_name bq_client project_id
             dataset_id bucket_name schema primary_key write_disposition in
  ending r = Returns v ->
  v = project_id ++ "." ++ dataset_id ++ "." ++ table_name /\
  (exists cfg,
      submissions (trace r) =
        [("gs://" ++ bucket_name ++ "/" ++ gcs_path, cfg)]) /\
  exists job table,
    In (JobResult job) (trace r) /\
    bigquery.result job = Returns tt /\
    bigquery.get_table bq_client v = Returns table.
Proof.
  intros r. subst r. unfold load_parquet_from_gcs.
  run_cases; intros Hend; try discriminate Hend.
  all: injection Hend as <-; split; [reflexivity|].
  all: split; [eexists; reflexivity|].
  all: match goal with
       | H : bigquery.result ?j = Returns ?x |- _ =>
           destruct x; exists j
       end.
  all: eexists; split; [in_now | split; eassumption].
Qed.

Lemma parquet_returns_table_id_witness :
  let r := load_parquet_from_gcs "x.parquet" "p" Sample.bq_ok "proj" "ds"
             "bucket" None (Some "id") "WRITE_TRUNCATE" in
  ending r = Returns "proj.ds.p" /\
  "proj.ds.p" = "proj" ++ "." ++ "ds" ++ "." ++ "p" /\
  (exists cfg, submissions (trace r) = [("gs://bucket/x.parquet", cfg)]) /\
  exists job table,
    In (JobResult job) (trace r) /\
    bigquery.result job = Returns tt /\
    bigquery.get_table Sample.bq_ok "proj.ds.p" = Returns table.
Proof.
  intros r. split; [reflexivity|].
  exact (parquet_returns_table_id "x.parquet" "p" Sample.bq_ok "proj" "ds"
           "bucket" None (Some "id") "WRITE_TRUNCATE" "proj.ds.p" eq_refl).
Defined.

(** X16: when [load_csv_from_gcs] returns, it returns
    project.dataset.table, it has submitted exactly one job, that job's
    wait has returned and the table could be fetched. *)
Theorem csv_returns_table_id
    gcs_path table_name bq_client project_id dataset_id bucket_name schema
    skip_leading_rows write_disposition encoding sep date_format
    datetime_format storage_client v :
  let r := load_csv_from_gcs gcs_path table_name bq_client project_id
             dataset_id bucket_name schema skip_leading_rows write_disposition
             encoding sep date_format datetime_format storage_client in
  ending r = Returns v ->
  v = table_id_of project_id dataset_id table_name /\
  length (submissions (trace r)) = 1%nat /\
  exists job table,
    In (JobResult job) (trace r) /\
    bigquery.result job = Returns tt /\
    bigquery.get_table bq_client v = Returns table.
Proof.
  intros r. subst r. unfold load_csv_from_gcs, stage_source, cleanup.
  run_cases; intros Hend; try discriminate Hend.
  all: injection Hend as <-; split; [reflexivity|]; split; [reflexivity|].
  all: match goal with
       | H : bigquery.result ?j = Returns ?x |- _ =>
           destruct x; exists j
       end.
  all: eexists; split; [in_now | split; eassumption].
Qed.

Lemma csv_returns_table_id_witness :
  let r := load_csv_from_gcs "data/f.csv" "t" Sample.bq_ok "proj" "ds" "bucket"
             None 1 "WRITE_TRUNCATE" (Some "utf-16le") (Some ";") None None
             (Some Sample.store_delete_fails) in
  ending r = Returns "proj.ds.t" /\
  "proj.ds.t" = table_id_of "proj" "ds" "t" /\
  length (submissions (trace r)) = 1%nat /\
  exists job table,
    In (JobResult job) (trace r) /\
    bigquery.result job = Returns tt /\
    bigquery.get_table Sample.bq_ok "proj.ds.t" = Returns table.
Proof.
  intros r. split; [reflexivity|].
  exact (csv_returns_table_id "data/f.csv" "t" Sample.bq_ok "proj" "ds" "bucket"
           None 1 "WRITE_TRUNCATE" (Some "utf-16le") (Some ";") None None
           (Some Sample.store_delete_fails) "proj.ds.t" eq_refl).
Defined.

(** ** Arguments that make no difference *)

(** X17: for [load_csv_from_gcs] an empty string given as encoding,
    delimiter, date format or datetime format, and an empty list given as
    schema, behave in every respect as if the argument were absent. *)
Theorem empty_arguments_behave_as_absent
    gcs_path table_name bq_client project_id dataset_id bucket_name schema
    skip_leading_rows write_disposition encoding sep date_format
    datetime_format storage_client :
  let load := load_csv_from_gcs gcs_path table_name bq_client project_id
                dataset_id bucket_name in
  load schema skip_leading_rows write_disposition (Some "") sep date_format
       datetime_format storage_client
  = load schema skip_leading_rows write_disposition None sep date_format
         datetime_format storage_client /\
  load schema skip_leading_rows write_disposition encoding (Some "")
       date_format datetime_format storage_client
  = load schema skip_leading_rows write_disposition encoding None date_format
         datetime_format storage_client /\
  load schema skip_leading_rows write_disposition encoding sep (Some "")
       datetime_format storage_client
  = load schema skip_leading_rows write_disposition encoding sep None
         datetime_format storage_client /\
  load schema skip_leading_rows write_disposition encoding sep date_format
       (Some "") storage_client
  = load schema skip_leading_rows write_disposition encoding sep date_format
         None storage_client /\
  load (Some []) skip_leading_rows write_disposition encoding sep date_format
       datetime_format storage_client
  = load None skip_leading_rows write_disposition encoding sep date_format
         datetime_format storage_client.
Proof.
  intros load. subst load. cbv beta.
  split; [|split; [|split; [|split]]]; reflexivity.
Qed.

(** X18: for [load_parquet_from_gcs] an empty schema list and an empty
    primary key behave in every respect as if the argument were absent. *)
Theorem parquet_empty_arguments_behave_as_absent
    gcs_path table_name bq_client project_id dataset_id bucket_name schema
    primary_key write_disposition :
  let load := load_parquet_from_gcs gcs_path table_name bq_client project_id
                dataset_id bucket_name in
  load (Some []) primary_key write_disposition
  = load None primary_key write_disposition /\
  load schema (Some "") write_disposition = load schema None write_disposition.
Proof.
  split; reflexivity.
Qed.

(** X19: when the encoding triggers no conversion, the storage client is
    not used: the call does the same with any client, or with none. *)
Theorem storage_client_is_unused_without_conversion
    gcs_path table_name bq_client project_id dataset_id bucket_name schema
    skip_leading_rows write_disposition encoding sep date_format
    datetime_format sc1 sc2 :
  needs_utf16_conversion encoding = false ->
  load_csv_from_gcs gcs_path table_name bq_client project_id dataset_id
    bucket_name schema skip_leading_rows write_disposition encoding sep
    date_format datetime_format sc1
  = load_csv_from_gcs gcs_path table_name bq_client project_id dataset_id
      bucket_name schema skip_leading_rows write_disposition encoding sep
      date_format datetime_format sc2.
Proof.
  intros Hn. unfold load_csv_from_gcs.
  now rewrite !stage_source_direct by assumption.
Qed.

Lemma storage_client_is_unused_without_conversion_witness :
  needs_utf16_conversion (Some "latin-1") = false /\
  load_csv_from_gcs "data/f.csv" "t" Sample.bq_ok "proj" "ds" "bucket" None 1
    "WRITE_TRUNCATE" (Some "latin-1") None None None
    (Some Faulty.store_no_source)
  = load_csv_from_gcs "data/f.csv" "t" Sample.bq_ok "proj" "ds" "bucket" None 1
      "WRITE_TRUNCATE" (Some "latin-1") None None None None.
Proof.
  split; [reflexivity|].
  exact (storage_client_is_unused_without_conversion "data/f.csv" "t"
           Sample.bq_ok "proj" "ds" "bucket" None 1 "WRITE_TRUNCATE"
           (Some "latin-1") None None None (Some Faulty.store_no_source) None
           eq_refl).
Defined.

(** ** The conversion as a load of the temporary object *)

(** X20: once the conversion has staged the temporary object, the load
    goes on exactly as a load of gcs_path + ".utf8" with encoding "utf-8"
    would: the same job is submitted and the call ends the same way. *)
Theorem converted_load_is_a_utf8_load_of_the_temporary_object
    gcs_path table_name bq_client project_id dataset_id bucket_name schema
    skip_leading_rows write_disposition encoding sep date_format
    datetime_format client other content text utf8 :
  needs_utf16_conversion encoding = true ->
  storage.download_as_bytes client bucket_name gcs_path = Returns content ->
  Codec.decode_utf_16_le content = Returns text ->
  Codec.encode_utf_8 text = Returns utf8 ->
  storage.upload_from_string client bucket_name (gcs_path ++ ".utf8") utf8
    "text/plain" = Returns tt ->
  let converted :=
    load_csv_from_gcs gcs_path table_name bq_client project_id dataset_id
      bucket_name schema skip_leading_rows write_disposition encoding sep
      date_format datetime_format (Some client) in
  let direct :=
    load_csv_from_gcs (gcs_path ++ ".utf8") table_name bq_client project_id
      dataset_id bucket_name schema skip_leading_rows write_disposition
      (Some "utf-8") sep date_format datetime_format other in
  submissions (trace converted) = submissions (trace direct) /\
  ending converted = ending direct.
Proof.
  intros Hn Hdl Hdec Henc Hup converted direct. subst converted direct.
  unfold load_csv_from_gcs.
  rewrite (stage_source_direct (gcs_path ++ ".utf8")) by reflexivity.
  unfold stage_source, cleanup. rewrite Hn. cbn.
  rewrite Hdl. cbn. rewrite Hdec. cbn. rewrite Henc. cbn. rewrite Hup. cbn.
  run_cases; split; reflexivity.
Qed.

Lemma converted_load_is_a_utf8_load_of_the_temporary_object_witness :
  needs_utf16_conversion (Some "utf-16le") = true /\
  storage.download_as_bytes Sample.store_delete_fails "bucket" "data/f.csv"
    = Returns Sample.utf16_body /\
  Codec.decode_utf_16_le Sample.utf16_body = Returns [0x61; 0x3b; 0x62] /\
  Codec.encode_utf_8 [0x61; 0x3b; 0x62] = Returns Sample.utf8_body /\
  storage.upload_from_string Sample.store_delete_fails "bucket"
    ("data/f.csv" ++ ".utf8") Sample.utf8_body "text/plain" = Returns tt /\
  let converted :=
    load_csv_from_gcs "data/f.csv" "t" Sample.bq_job_fails "proj" "ds" "bucket"
      None 1 "WRITE_TRUNCATE" (Some "utf-16le") (Some ";") None None
      (Some Sample.store_delete_fails) in
  let direct :=
    load_csv_from_gcs ("data/f.csv" ++ ".utf8") "t" Sample.bq_job_fails "proj"
      "ds" "bucket" None 1 "WRITE_TRUNCATE" (Some "utf-8") (Some ";") None None
      None in
  submissions (trace converted) = submissions (trace direct) /\
  ending converted = ending direct.
Proof.
  do 5 (split; [reflexivity|]).
  exact (converted_load_is_a_utf8_load_of_the_temporary_object "data/f.csv" "t"
           Sample.bq_job_fails "proj" "ds" "bucket" None 1 "WRITE_TRUNCATE"
           (Some "utf-16le") (Some ";") None None Sample.store_delete_fails
           None Sample.utf16_body [0x61; 0x3b; 0x62] Sample.utf8_body
           eq_refl eq_refl eq_refl eq_refl eq_refl).
Defined.

(** ** No call is repeated *)

(** X21: in a run of either loader each kind of remote call (download,
    upload, job submission, wait, table fetch, deletion) is made at most
    once; the Parquet loader makes no call to the store at all. *)
Theorem no_call_is_repeated
    gcs_path table_name bq_client project_id dataset_id bucket_name schema
    primary_key skip_leading_rows write_disposition encoding sep date_format
    datetime_format storage_client :
  let rp := load_parquet_from_gcs gcs_path table_name bq_client project_id
              dataset_id bucket_name schema primary_key write_disposition in
  let rc := load_csv_from_gcs gcs_path table_name bq_client project_id
              dataset_id bucket_name schema skip_leading_rows write_disposition
              encoding sep date_format datetime_format storage_client in
  Forall (fun kind => (count kind (trace rp) <= 1)%nat /\
                      (count kind (trace rc) <= 1)%nat)
         [is_download; is_upload; is_submission; is_job_result; is_get_table;
          is_delete] /\
  count is_store_op (trace rp) = 0%nat.
Proof.
  intros rp rc. subst rp rc.
  unfold load_parquet_from_gcs, load_csv_from_gcs, stage_source, cleanup.
  run_cases; split; try reflexivity; repeat constructor.
Qed.
